(** * KITTI point-cloud reader/publisher node

    A shallow embedding of
    [kitti_data_reader_nodes/point_cloud_reader_publisher_node.cpp]:
    the binary frame decoder [loadPointCloudDataFromBin], the constructor of
    [PointCloudReaderPublisherNode] (path checks, count check, loading loop,
    first timer) and the self-rescheduling wall timer armed by
    [updateTimerAndPublish].

    The file system and the two readers declared in [timestamp_reader.hpp]
    and [filename_reader.hpp] are inputs ([Host]). The publisher, its QoS
    settings and the synchronisation sleep of the constructor do not touch
    the state modelled here; a published message is the value returned by
    the timer callback. Signed 64-bit subtraction wraps. *)

From Stdlib Require Import ZArith List Lia String.
From Stdlib.Strings Require Import Byte.
From stdpp Require Import base option list gmap strings.
From Equations Require Import Equations.

Local Open Scope Z_scope.

(** ** Machine integers *)

Module Int.

(** [std::uint32_t]: arithmetic modulo 2^32. *)
Definition uint32 (z : Z) : Z := z mod 2 ^ 32.

(** [std::int64_t] / [std::chrono::nanoseconds::rep]: two's complement
    wrap-around into [-2^63, 2^63). *)
Definition int64 (z : Z) : Z := (z + 2 ^ 63) mod 2 ^ 64 - 2 ^ 63.

Definition in_int64 (z : Z) : Prop := - 2 ^ 63 <= z < 2 ^ 63.

Definition sub64 (a b : Z) : Z := int64 (a - b).

End Int.

(** ** Outcomes of running a piece of the node

    [Throw] is a C++ exception ([std::runtime_error] with its [what()]
    string); [Undefined] is an indexing of a [std::vector] outside its
    bounds through [operator[]]. *)

Inductive outcome (A : Type) : Type :=
| Ok (a : A)
| Throw (what : string)
| Undefined.

Arguments Ok {A} a.
Arguments Throw {A} what.
Arguments Undefined {A}.

#[global] Instance outcome_ret : MRet outcome := fun A a => Ok a.

#[global] Instance outcome_bind : MBind outcome := fun A B k m =>
  match m with
  | Ok a => k a
  | Throw e => Throw e
  | Undefined => Undefined
  end.

(** Code that also opens files threads the log of the file names opened so
    far, oldest first. *)
Definition io (A : Type) : Type := list string -> outcome A * list string.

#[global] Instance io_ret : MRet io := fun A a log => (Ok a, log).

#[global] Instance io_bind : MBind io := fun A B k m log =>
  match m log with
  | (Ok a, log') => k a log'
  | (Throw e, log') => (Throw e, log')
  | (Undefined, log') => (Undefined, log')
  end.

Definition throw {A} (what : string) : io A := fun log => (Throw what, log).

Definition lift {A} (o : outcome A) : io A := fun log => (o, log).

(** [v[i]] on a [std::vector]. *)
Definition at_ {A} (v : list A) (i : Z) : outcome A :=
  if i <? 0 then Undefined
  else match v !! Z.to_nat i with
       | Some a => Ok a
       | None => Undefined
       end.

(** [v.size()] *)
Definition size {A} (v : list A) : Z := Z.of_nat (length v).

(** ** The frame decoder *)

(** A [float] is kept as its 32-bit IEEE-754 pattern; the decoder only
    moves these values around. *)
Definition float := Z.

Record PointCartesian := mkPoint
  { x_m : float; y_m : float; z_m : float; intensity : float }.

(** The files that can be opened for reading, by name, with their bytes. *)
Abbreviation files := (gmap string (list byte)).

(** [std::ifstream input(filename, std::ios::binary)]: [None] when the
    stream is not [good()]. *)
Definition ifstream (fs : files) (filename : string)
  : io (option (list byte)) :=
  fun log => (Ok (fs !! filename), log ++ [filename]).

Module Decoder.

Definition buffer_size : Z := 1000000.
Definition sizeof_float : Z := 4.

Definition byte_val (b : byte) : Z := Z.of_N (Byte.to_N b).

(** Number of bytes [input.read] stores, i.e. [input.gcount()]: the whole
    file, or as much of it as the buffer holds. *)
Definition gcount (file : list byte) : Z :=
  Z.min (size file) (buffer_size * sizeof_float).

(** Byte [j] of the storage of [data_buffer] after the read: the buffer is
    value-initialised (all zero) and the first [gcount] bytes are
    overwritten with the file's. *)
Definition buffer_byte (file : list byte) (j : Z) : Z :=
  if (0 <=? j) && (j <? gcount file)
  then byte_val (default "000"%byte (file !! Z.to_nat j))
  else 0.

(** [data_buffer[i]], read on a little-endian host. *)
Definition data_buffer (file : list byte) (i : Z) : float :=
  Z.lor (buffer_byte file (4 * i))
    (Z.lor (Z.shiftl (buffer_byte file (4 * i + 1)) 8)
       (Z.lor (Z.shiftl (buffer_byte file (4 * i + 2)) 16)
          (Z.shiftl (buffer_byte file (4 * i + 3)) 24))).

Definition number_of_floats (file : list byte) : Z :=
  gcount file / sizeof_float.

Definition point_at (file : list byte) (i : Z) : PointCartesian :=
  {| x_m := data_buffer file i;
     y_m := data_buffer file (i + 1);
     z_m := data_buffer file (i + 2);
     intensity := data_buffer file (i + 3) |}.

(** The copy loop [for (i = 0; i < number_of_floats; i += 4)], entered at
    index [i] with the points pushed so far. *)
Equations? copy_loop (file : list byte) (n : Z) (i : Z)
    (point_cloud : list PointCartesian) : list PointCartesian
    by wf (Z.to_nat (n - i)) lt :=
  copy_loop file n i point_cloud with Z_lt_dec i n := {
    | left _ => copy_loop file n (i + 4) (point_cloud ++ [point_at file i])
    | right _ => point_cloud }.
Proof. lia. Qed.

(** What the function returns once the stream is open. *)
Definition read_points (file : list byte) : list PointCartesian :=
  copy_loop file (number_of_floats file) 0 [].

Definition loadPointCloudDataFromBin (fs : files) (filename : string)
  : io (list PointCartesian) :=
  input ← ifstream fs filename;
  match input with
  | None => mret []
  | Some file => mret (read_points file)
  end.

End Decoder.

(** ** The node *)

(** [sensor_msgs::msg::PointCloud2], without the fields that only restate
    the memory layout of [common::PointCartesian] ([point_step], [row_step],
    [fields]). [stamp] is the capture time in nanoseconds from which
    [header.stamp] is filled in; [data] holds the points copied into the
    message. *)
Record PointCloud2 := mkCloud
  { height : Z;
    width : Z;
    is_bigendian : bool;
    is_dense : bool;
    frame_id : string;
    stamp : Z;
    data : list PointCartesian }.

(** What the constructor gets from the file system and from the two readers
    of [timestamp_reader.hpp] and [filename_reader.hpp]. *)
Record Host := mkHost
  { path_exists : string -> bool;
    readTimestamps : string -> list Z;
    readFilenames : string -> string -> list string;
    binary_files : files }.

Record Node := mkNode
  { timestamp_cache_ : list Z;
    point_cloud_cache_ : list PointCloud2;
    current_index_ : Z;
    (** the period of the wall timer held by [timer_] *)
    timer_ : Z }.

Module Reader.

Import Decoder.

Definition MAX_POINTS : Z := 200000.

(** [std::filesystem::path::operator/] *)
Definition path_join (a b : string) : string := (a +:+ "/" +:+ b)%string.

Definition to_message (t : Z) (point_cloud_data : list PointCartesian)
  : PointCloud2 :=
  {| height := 1;
     width := Int.uint32 (size point_cloud_data);
     is_bigendian := false;
     is_dense := true;
     frame_id := "pointcloud";
     stamp := t;
     data := point_cloud_data |}.

(** One iteration of the loading loop of the constructor. *)
Definition load_step (fs : files) (timestamp_cache_ : list Z)
    (data_files : list string) (i : Z) (point_cloud_cache_ : list PointCloud2)
  : io (list PointCloud2) :=
  filename ← lift (at_ data_files i);
  point_cloud_data ← loadPointCloudDataFromBin fs filename;
  match point_cloud_data with
  | [] => mret point_cloud_cache_
  | _ :: _ =>
      t ← lift (at_ timestamp_cache_ i);
      mret (point_cloud_cache_ ++ [to_message t point_cloud_data])
  end.

(** [for (i = 0; i < timestamp_cache_.size(); ++i)], with [todo]
    iterations left. *)
Fixpoint load_loop (fs : files) (timestamp_cache_ : list Z)
    (data_files : list string) (todo : nat) (i : Z)
    (point_cloud_cache_ : list PointCloud2) : io (list PointCloud2) :=
  match todo with
  | O => mret point_cloud_cache_
  | S todo' =>
      cache ← load_step fs timestamp_cache_ data_files i point_cloud_cache_;
      load_loop fs timestamp_cache_ data_files todo' (i + 1) cache
  end.

(** The count check and the loading loop of the constructor: the part that
    turns timestamps and data files into [point_cloud_cache_]. *)
Definition build (fs : files) (timestamp_cache_ : list Z)
    (data_files : list string) : io (list PointCloud2) :=
  if negb (size data_files =? size timestamp_cache_)
  then throw "The number of timestamps does not equal the number of data files"
  else load_loop fs timestamp_cache_ data_files
         (length timestamp_cache_) 0 [].

(** [updateTimerAndPublish(interval)]: a new wall timer replaces the one
    held by [timer_]. *)
Definition updateTimerAndPublish (interval : Z) (n : Node) : Node :=
  {| timestamp_cache_ := timestamp_cache_ n;
     point_cloud_cache_ := point_cloud_cache_ n;
     current_index_ := current_index_ n;
     timer_ := interval |}.

(** The end of the constructor: the cursor is set to the first position
    and the first timer armed with
    [timestamp_cache_[1] - timestamp_cache_[0]]. *)
Definition start (timestamp_cache_ : list Z)
    (point_cloud_cache_ : list PointCloud2) : outcome Node :=
  t1 ← at_ timestamp_cache_ 1;
  t0 ← at_ timestamp_cache_ 0;
  mret (updateTimerAndPublish (Int.sub64 t1 t0)
          {| timestamp_cache_ := timestamp_cache_;
             point_cloud_cache_ := point_cloud_cache_;
             current_index_ := 0;
             timer_ := 0 |}).

(** The constructor, from the path checks to the first timer. *)
Definition PointCloudReaderPublisherNode (h : Host) (data_path : string)
  : io Node :=
  if negb (path_exists h data_path)
  then throw "Specified data path does not exist."
  else
    let timestamps_file :=
      path_join (path_join data_path "velodyne_points") "timestamps_start.txt" in
    if negb (path_exists h timestamps_file)
    then throw "Timestamp data file timestamps_start.txt was not found."
    else
      let binary_data_path :=
        path_join (path_join data_path "velodyne_points") "data" in
      if negb (path_exists h binary_data_path)
      then throw "Data path containing *.bin files was not found.."
      else
        let timestamp_cache_ := readTimestamps h timestamps_file in
        let data_files := readFilenames h binary_data_path ".bin" in
        point_cloud_cache_ ← build (binary_files h) timestamp_cache_ data_files;
        lift (start timestamp_cache_ point_cloud_cache_).

(** The boundary sleep, [100'000'000ns]. *)
Definition boundary_sleep : Z := 100000000.

(** The cursor once the wraparound test at the head of the callback has
    run. *)
Definition wrapped_index (n : Node) : Z :=
  if current_index_ n =? size (point_cloud_cache_ n) then 0
  else current_index_ n.

(** The timer callback: the message it publishes and the node it leaves,
    with the next timer armed. *)
Definition timer_callback (n : Node) : outcome (PointCloud2 * Node) :=
  let current_index_ := wrapped_index n in
  message ← at_ (point_cloud_cache_ n) current_index_;
  sleep_duration_nanosec ←
    (if negb (Int.uint32 (current_index_ + 1) =? size (timestamp_cache_ n))
     then
       t1 ← at_ (timestamp_cache_ n) (Int.uint32 (current_index_ + 1));
       t0 ← at_ (timestamp_cache_ n) current_index_;
       mret (Int.sub64 t1 t0)
     else mret boundary_sleep);
  mret (message,
        updateTimerAndPublish sleep_duration_nanosec
          {| timestamp_cache_ := timestamp_cache_ n;
             point_cloud_cache_ := point_cloud_cache_ n;
             current_index_ := Int.uint32 (current_index_ + 1);
             timer_ := timer_ n |}).

(** The node after [k] firings of its timer. *)
Fixpoint after (k : nat) (n : Node) : outcome Node :=
  match k with
  | O => mret n
  | S k' => r ← timer_callback n; after k' r.2
  end.

(** Firing number [k], counted from 0. *)
Definition firing (k : nat) (n : Node) : outcome (PointCloud2 * Node) :=
  n' ← after k n; timer_callback n'.

End Reader.

(** ** Vocabulary of the statements *)

Import Decoder Reader.

(** The points a source yields: none when it cannot be opened. *)
Definition decode (fs : files) (filename : string) : list PointCartesian :=
  match fs !! filename with
  | None => []
  | Some file => read_points file
  end.

(** The frame sequence as the specification words it: the sources that
    decode to at least one point, in input order, each with the timestamp
    it came with. *)
Definition kept_sources (fs : files) (timestamps : list Z)
    (sources : list string) : list (Z * string) :=
  filter (fun source => decode fs source.2 <> []) (zip timestamps sources).

(** The sources left out of it. *)
Definition skipped_sources (fs : files) (timestamps : list Z)
    (sources : list string) : list (Z * string) :=
  filter (fun source => decode fs source.2 = []) (zip timestamps sources).

Definition frame_sequence (fs : files) (timestamps : list Z)
    (sources : list string) : list PointCloud2 :=
  (fun source => to_message source.1 (decode fs source.2))
    <$> kept_sources fs timestamps sources.

(** A node that can play: it holds at least one frame, no more frames than
    timestamps, and its cursor type can count them. *)
Record playable (n : Node) : Prop :=
  { has_frame : 0 < size (point_cloud_cache_ n);
    frames_le_stamps : size (point_cloud_cache_ n) <= size (timestamp_cache_ n);
    fits_uint32 : size (point_cloud_cache_ n) < 2 ^ 32;
    cursor_range : 0 <= current_index_ n <= size (point_cloud_cache_ n) }.

(** Whether the firing entered on [n] executes the wraparound assignment
    [current_index_ = 0U], as a count. *)
Definition wraps_now (n : Node) : nat :=
  if current_index_ n =? size (point_cloud_cache_ n) then 1%nat else 0%nat.

(** How many of the first [k] firings execute it. *)
Fixpoint wraparounds (k : nat) (n : Node) : outcome nat :=
  match k with
  | O => mret 0%nat
  | S k' =>
      r ← timer_callback n;
      w ← wraparounds k' r.2;
      mret (wraps_now n + w)%nat
  end.

(** A file that fills the buffer: [buffer_size * sizeof_float] zero
    bytes. *)
Definition full_file : list byte :=
  repeat "000"%byte (Z.to_nat (buffer_size * sizeof_float)).

(** The little-endian value of the four bytes of [file] from [offset] on,
    when it has them. *)
Definition le_word (file : list byte) (offset : nat) : option Z :=
  match file !! offset, file !! S offset,
        file !! S (S offset), file !! S (S (S offset)) with
  | Some b0, Some b1, Some b2, Some b3 =>
      Some (byte_val b0 + 256 * byte_val b1
            + 65536 * byte_val b2 + 16777216 * byte_val b3)
  | _, _, _, _ => None
  end.

(** The waits armed by the first [k] firings, in order. *)
Fixpoint waits (k : nat) (n : Node) : outcome (list Z) :=
  match k with
  | O => mret []
  | S k' =>
      r ← timer_callback n;
      ws ← waits k' r.2;
      mret (timer_ r.2 :: ws)
  end.

(** ** Inputs the statements are evaluated at *)

Module Fixture.

(** A file holding one point: four floats, sixteen bytes. *)
Definition one_point (b : byte) : list byte := repeat b 16.

(** Five floats: one point and a quarter of the next. *)
Definition five_floats : list byte := repeat "001"%byte 20.

(** A host on which every path exists. *)
Definition host (timestamps : list Z) (names : list string) (fs : files)
  : Host :=
  {| path_exists := fun _ => true;
     readTimestamps := fun _ => timestamps;
     readFilenames := fun _ _ => names;
     binary_files := fs |}.

Definition names3 : list string :=
  ["0000000000.bin"; "0000000001.bin"; "0000000002.bin"]%string.

(** Three timestamped sources, all decodable. *)
Definition disk3 : files :=
  {[ "0000000000.bin"%string := one_point "001";
     "0000000001.bin"%string := one_point "002";
     "0000000002.bin"%string := one_point "003" ]}.

Definition host3 : Host := host [1000; 1500; 5000] names3 disk3.

(** The same, with an empty second file. *)
Definition disk3_gap : files :=
  {[ "0000000000.bin"%string := one_point "001";
     "0000000001.bin"%string := [];
     "0000000002.bin"%string := one_point "003" ]}.

Definition host3_gap : Host := host [1000; 1500; 5000] names3 disk3_gap.

(** Two sources, the second captured before the first. *)
Definition host2_back : Host :=
  host [1000; 900] ["0000000000.bin"; "0000000001.bin"]%string disk3.

(** Two timestamps, two empty files. *)
Definition host2_empty : Host :=
  host [1000; 1500] ["0000000000.bin"; "0000000001.bin"]%string
    {[ "0000000000.bin"%string := []; "0000000001.bin"%string := [] ]}.

(** No timestamp and no file. *)
Definition host0 : Host := host [] [] ∅.

(** Three timestamps, only the first file readable. *)
Definition host3_single : Host :=
  host [1000; 1500; 5000] names3
    {[ "0000000000.bin"%string := one_point "001" ]}.

(** One file that fills the decoder's buffer. *)
Definition disk_full : files := {[ "0000000000.bin"%string := full_file ]}.

(** One timestamp, one decodable file. *)
Definition host1 : Host := host [1000] ["0000000000.bin"%string] disk3.

Definition frame (t : Z) (b : byte) : PointCloud2 :=
  Reader.to_message t (Decoder.read_points (one_point b)).

Definition node3 : Node :=
  {| timestamp_cache_ := [1000; 1500; 5000];
     point_cloud_cache_ := [frame 1000 "001"; frame 1500 "002"; frame 5000 "003"];
     current_index_ := 0;
     timer_ := 500 |}.

Definition node2_back : Node :=
  {| timestamp_cache_ := [1000; 900];
     point_cloud_cache_ := [frame 1000 "001"; frame 900 "002"];
     current_index_ := 0;
     timer_ := -100 |}.

Definition node1 : Node :=
  {| timestamp_cache_ := [1000];
     point_cloud_cache_ := [frame 1000 "001"];
     current_index_ := 0;
     timer_ := 0 |}.

End Fixture.

(** * Properties *)

(** Closes [playable n] for a concrete node [n]. *)
Ltac playable_by_computation := split; vm_compute; intuition congruence.

(** ** Machine integers *)

Lemma int64_id z : Int.in_int64 z -> Int.int64 z = z.
Proof.
  unfold Int.in_int64, Int.int64. intros Hz.
  rewrite Z.mod_small; lia.
Qed.

Lemma uint32_small z : 0 <= z < 2 ^ 32 -> Int.uint32 z = z.
Proof. intros Hz. unfold Int.uint32. apply Z.mod_small. exact Hz. Qed.

(** ** The decoder *)

Section DecoderFacts.

Import Decoder.

Lemma size_app {A} (l1 l2 : list A) : size (l1 ++ l2) = size l1 + size l2.
Proof. unfold size. rewrite length_app. lia. Qed.

Lemma size_nonneg {A} (l : list A) : 0 <= size l.
Proof. unfold size. lia. Qed.

Lemma gcount_bounds file : 0 <= gcount file <= 4000000.
Proof.
  unfold gcount, buffer_size, sizeof_float.
  pose proof (size_nonneg file). lia.
Qed.

Lemma number_of_floats_bounds file : 0 <= number_of_floats file <= 1000000.
Proof.
  unfold number_of_floats, sizeof_float.
  pose proof (gcount_bounds file) as Hg.
  split.
  - apply Z.div_pos; lia.
  - apply Z.div_le_upper_bound; lia.
Qed.

(** The loop pushes one point per index [i, i+4, i+8, ...] below [n]. *)
Lemma copy_loop_size file n i acc :
  size (copy_loop file n i acc) = size acc + Z.max 0 ((n - i + 3) / 4).
Proof.
  funelim (copy_loop file n i acc).
  - rewrite H. rewrite size_app. unfold size at 2. simpl length.
    replace (n - i + 3) with ((n - (i + 4) + 3) + 1 * 4) by lia.
    rewrite Z.div_add by lia.
    assert (0 <= (n - (i + 4) + 3) / 4) by (apply Z.div_pos; lia).
    lia.
  - assert ((n - i + 3) / 4 <= 0).
    { assert ((n - i + 3) / 4 < 1); [|lia].
      apply Z.div_lt_upper_bound; lia. }
    lia.
Qed.

Lemma read_points_size file :
  size (read_points file) = (number_of_floats file + 3) / 4.
Proof.
  unfold read_points. rewrite copy_loop_size.
  pose proof (number_of_floats_bounds file).
  replace (number_of_floats file - 0 + 3) with (number_of_floats file + 3) by lia.
  assert (0 <= (number_of_floats file + 3) / 4) by (apply Z.div_pos; lia).
  unfold size at 1. simpl. lia.
Qed.

Lemma copy_loop_ext f1 f2 n i acc :
  (forall j, point_at f1 j = point_at f2 j) ->
  copy_loop f1 n i acc = copy_loop f2 n i acc.
Proof.
  intros Hext. funelim (copy_loop f1 n i acc).
  - rewrite (copy_loop_equation_1 f2 n i point_cloud), Heq. simpl.
    rewrite <- Hext. apply H. exact Hext.
  - rewrite (copy_loop_equation_1 f2 n i point_cloud), Heq. reflexivity.
Qed.

(** Bytes past the capacity of the buffer never reach it. *)
Lemma buffer_byte_prefix file rest j :
  buffer_size * sizeof_float <= size file ->
  buffer_byte (file ++ rest) j = buffer_byte file j.
Proof.
  intros Hfull. unfold buffer_byte.
  assert (Hg : gcount (file ++ rest) = gcount file).
  { unfold gcount. rewrite size_app. pose proof (size_nonneg rest). lia. }
  rewrite Hg.
  destruct ((0 <=? j) && (j <? gcount file)) eqn:Hin; [|reflexivity].
  apply andb_true_iff in Hin as [H0 Hj].
  apply Z.leb_le in H0. apply Z.ltb_lt in Hj.
  rewrite lookup_app_l; [reflexivity|].
  unfold gcount, size in Hj. lia.
Qed.

Lemma read_points_prefix file rest :
  buffer_size * sizeof_float <= size file ->
  read_points (file ++ rest) = read_points file.
Proof.
  intros Hfull. unfold read_points.
  assert (Hn : number_of_floats (file ++ rest) = number_of_floats file).
  { unfold number_of_floats, gcount. rewrite size_app.
    pose proof (size_nonneg rest). f_equal. lia. }
  rewrite Hn. apply copy_loop_ext.
  intros j. unfold point_at, data_buffer.
  rewrite !(buffer_byte_prefix file rest) by exact Hfull. reflexivity.
Qed.

Lemma full_file_size : size full_file = 4000000.
Proof.
  unfold full_file, size. rewrite repeat_length.
  rewrite Z2Nat.id; [reflexivity | unfold buffer_size, sizeof_float; lia].
Qed.

Lemma full_file_points : size (read_points full_file) = 250000.
Proof.
  rewrite read_points_size. unfold number_of_floats, gcount.
  rewrite full_file_size. reflexivity.
Qed.

End DecoderFacts.

(** ** Building the cache *)

Section BuildFacts.

Import Decoder Reader.

Lemma loadPointCloudDataFromBin_run fs filename log :
  loadPointCloudDataFromBin fs filename log
  = (Ok (decode fs filename), log ++ [filename]).
Proof.
  unfold loadPointCloudDataFromBin, decode, ifstream, mbind, io_bind.
  destruct (fs !! filename); reflexivity.
Qed.

Lemma load_step_run fs ts data_files (i : nat) t filename cache log :
  ts !! i = Some t ->
  data_files !! i = Some filename ->
  load_step fs ts data_files (Z.of_nat i) cache log
  = (Ok (cache ++ frame_sequence fs [t] [filename]), log ++ [filename]).
Proof.
  intros Ht Hf.
  unfold load_step, lift, at_, mbind, io_bind.
  destruct (Z.of_nat i <? 0) eqn:Hneg; [apply Z.ltb_lt in Hneg; lia|].
  rewrite Nat2Z.id, Hf, Ht. simpl.
  rewrite loadPointCloudDataFromBin_run.
  unfold frame_sequence, kept_sources. simpl.
  rewrite filter_cons, filter_nil.
  destruct (decide _) as [Hk|Hk]; simpl in Hk.
  - destruct (decode fs filename) as [|p pts] eqn:Hd; [contradiction|].
    simpl. rewrite Hd. reflexivity.
  - destruct (decode fs filename) as [|p pts] eqn:Hd.
    + simpl. rewrite app_nil_r. reflexivity.
    + exfalso. apply Hk. discriminate.
Qed.

Lemma frame_sequence_cons fs t ts f files :
  frame_sequence fs (t :: ts) (f :: files)
  = frame_sequence fs [t] [f] ++ frame_sequence fs ts files.
Proof.
  unfold frame_sequence, kept_sources. simpl.
  rewrite !filter_cons, filter_nil.
  destruct (decide _); reflexivity.
Qed.

Lemma load_loop_run fs ts data_files :
  length data_files = length ts ->
  forall todo (i : nat) cache log,
    (i + todo)%nat = length ts ->
    load_loop fs ts data_files todo (Z.of_nat i) cache log
    = (Ok (cache ++ frame_sequence fs (drop i ts) (drop i data_files)),
       log ++ drop i data_files).
Proof.
  intros Hlen. induction todo as [|todo IH]; intros i cache log Hi.
  - simpl. rewrite !drop_ge by lia.
    unfold frame_sequence, kept_sources. simpl.
    rewrite !app_nil_r. reflexivity.
  - destruct (lookup_lt_is_Some_2 ts i) as [t Ht]; [lia|].
    destruct (lookup_lt_is_Some_2 data_files i) as [f Hf]; [lia|].
    simpl. unfold mbind at 1, io_bind at 1.
    rewrite (load_step_run _ _ _ _ _ _ _ _ Ht Hf).
    replace (Z.of_nat i + 1) with (Z.of_nat (S i)) by lia.
    rewrite IH by lia.
    rewrite (drop_S _ _ _ Ht), (drop_S _ _ _ Hf).
    rewrite (frame_sequence_cons fs t (drop (S i) ts) f).
    rewrite <- !app_assoc. reflexivity.
Qed.

Lemma build_run fs ts data_files log :
  length data_files = length ts ->
  build fs ts data_files log
  = (Ok (frame_sequence fs ts data_files), log ++ data_files).
Proof.
  intros Hlen. unfold build, size.
  rewrite Hlen, Z.eqb_refl. simpl.
  apply (load_loop_run fs ts data_files Hlen (length ts) 0%nat [] log).
  reflexivity.
Qed.

Lemma build_mismatch fs ts data_files log :
  length data_files <> length ts ->
  build fs ts data_files log
  = (Throw "The number of timestamps does not equal the number of data files",
     log).
Proof.
  intros Hlen. unfold build, size.
  destruct (Z.of_nat (length data_files) =? Z.of_nat (length ts)) eqn:He.
  - apply Z.eqb_eq in He. lia.
  - reflexivity.
Qed.

End BuildFacts.

(** ** The timer *)

Section TimerFacts.

Import Reader.

Lemma at_lookup {A} (v : list A) (i : Z) a :
  0 <= i -> v !! Z.to_nat i = Some a -> at_ v i = Ok a.
Proof.
  intros Hi Hl. unfold at_.
  destruct (i <? 0) eqn:Hneg; [apply Z.ltb_lt in Hneg; lia|].
  rewrite Hl. reflexivity.
Qed.

Lemma at_in_range {A} (v : list A) (i : Z) :
  0 <= i < size v -> exists a, v !! Z.to_nat i = Some a /\ at_ v i = Ok a.
Proof.
  intros Hi. unfold size in Hi.
  destruct (lookup_lt_is_Some_2 v (Z.to_nat i)) as [a Ha]; [lia|].
  exists a. split; [exact Ha|]. apply at_lookup; [lia|exact Ha].
Qed.

Lemma wrapped_index_range n :
  playable n -> 0 <= wrapped_index n < size (point_cloud_cache_ n).
Proof.
  intros [H1 H2 H3 H4]. unfold wrapped_index.
  destruct (current_index_ n =? size (point_cloud_cache_ n)) eqn:He.
  - lia.
  - apply Z.eqb_neq in He. lia.
Qed.

(** One firing of a playable node, spelled out. *)
Lemma timer_callback_run n :
  playable n ->
  let c := wrapped_index n in
  exists message n',
    timer_callback n = Ok (message, n')
    /\ point_cloud_cache_ n !! Z.to_nat c = Some message
    /\ timestamp_cache_ n' = timestamp_cache_ n
    /\ point_cloud_cache_ n' = point_cloud_cache_ n
    /\ current_index_ n' = c + 1
    /\ (c + 1 = size (timestamp_cache_ n) -> timer_ n' = boundary_sleep)
    /\ (c + 1 <> size (timestamp_cache_ n) ->
        exists t0 t1,
          timestamp_cache_ n !! Z.to_nat c = Some t0
          /\ timestamp_cache_ n !! Z.to_nat (c + 1) = Some t1
          /\ timer_ n' = Int.sub64 t1 t0).
Proof.
  intros Hp c. pose proof (wrapped_index_range n Hp) as Hc. fold c in Hc.
  destruct Hp as [H1 H2 H3 H4].
  destruct (at_in_range (point_cloud_cache_ n) c Hc) as (message & Hm & Hat).
  assert (Hu : Int.uint32 (c + 1) = c + 1) by (apply uint32_small; lia).
  unfold timer_callback. fold c. rewrite Hat, Hu. simpl.
  destruct (c + 1 =? size (timestamp_cache_ n)) eqn:He; simpl.
  - apply Z.eqb_eq in He.
    eexists _, _. split; [reflexivity|]. simpl.
    repeat split; try assumption; try reflexivity. intros Hne. lia.
  - apply Z.eqb_neq in He.
    destruct (at_in_range (timestamp_cache_ n) (c + 1)) as (t1 & Ht1 & Hat1); [lia|].
    destruct (at_in_range (timestamp_cache_ n) c) as (t0 & Ht0 & Hat0); [lia|].
    rewrite Hat1, Hat0. simpl.
    eexists _, _. split; [reflexivity|]. simpl.
    repeat split; try assumption; try reflexivity; [lia|].
    intros _. exists t0, t1. repeat split; assumption.
Qed.

Lemma timer_callback_playable n message n' :
  playable n -> timer_callback n = Ok (message, n') -> playable n'.
Proof.
  intros Hp Hcb.
  pose proof (wrapped_index_range n Hp) as Hc.
  destruct (timer_callback_run n Hp) as (m & n1 & Hrun & _ & Hts & Hpc & Hci & _).
  rewrite Hrun in Hcb. inversion Hcb; subst m n1. clear Hcb.
  destruct Hp as [H1 H2 H3 H4].
  split; rewrite ?Hts, ?Hpc, ?Hci; lia.
Qed.

Lemma wrapped_index_next n message n' :
  playable n -> timer_callback n = Ok (message, n') ->
  wrapped_index n' = (wrapped_index n + 1) mod size (point_cloud_cache_ n).
Proof.
  intros Hp Hcb.
  pose proof (wrapped_index_range n Hp) as Hc.
  destruct (timer_callback_run n Hp) as (m & n1 & Hrun & _ & Hts & Hpc & Hci & _).
  rewrite Hrun in Hcb. inversion Hcb; subst m n1. clear Hcb.
  unfold wrapped_index at 1. rewrite Hci, Hpc.
  destruct (wrapped_index n + 1 =? size (point_cloud_cache_ n)) eqn:He.
  - apply Z.eqb_eq in He. rewrite He, Z.mod_same; lia.
  - apply Z.eqb_neq in He. rewrite Z.mod_small; lia.
Qed.

(** [k] firings of a playable node all succeed; they leave the two caches
    alone and move the cursor [k] places round the frames. *)
Lemma after_run k : forall n,
  playable n ->
  exists nk,
    after k n = Ok nk
    /\ playable nk
    /\ timestamp_cache_ nk = timestamp_cache_ n
    /\ point_cloud_cache_ nk = point_cloud_cache_ n
    /\ wrapped_index nk
       = (wrapped_index n + Z.of_nat k) mod size (point_cloud_cache_ n).
Proof.
  induction k as [|k IH]; intros n Hp.
  - exists n. split; [reflexivity|]. split; [exact Hp|].
    split; [reflexivity|]. split; [reflexivity|].
    change (Z.of_nat 0) with 0.
    rewrite Z.add_0_r, Z.mod_small; [reflexivity|].
    apply wrapped_index_range, Hp.
  - destruct (timer_callback_run n Hp) as (m & n1 & Hrun & _ & Hts & Hpc & _).
    pose proof (timer_callback_playable n m n1 Hp Hrun) as Hp1.
    pose proof (wrapped_index_next n m n1 Hp Hrun) as Hw1.
    destruct (IH n1 Hp1) as (nk & Hk & Hpk & Htsk & Hpck & Hwk).
    exists nk. simpl. rewrite Hrun. simpl.
    split; [exact Hk|]. split; [exact Hpk|].
    split; [congruence|]. split; [congruence|].
    rewrite Hwk, Hw1, Hpc.
    rewrite Zplus_mod_idemp_l. f_equal. lia.
Qed.

(** Until the cursor reaches the number of frames it is not reset. *)
Lemma after_cursor k : forall n,
  playable n ->
  current_index_ n + Z.of_nat k <= size (point_cloud_cache_ n) ->
  exists nk,
    after k n = Ok nk /\ current_index_ nk = current_index_ n + Z.of_nat k.
Proof.
  induction k as [|k IH]; intros n Hp Hle.
  - exists n. simpl. split; [reflexivity|lia].
  - destruct (timer_callback_run n Hp) as (m & n1 & Hrun & _ & Hts & Hpc & Hci & _).
    pose proof (timer_callback_playable n m n1 Hp Hrun) as Hp1.
    assert (Hw : wrapped_index n = current_index_ n).
    { unfold wrapped_index.
      destruct (current_index_ n =? size (point_cloud_cache_ n)) eqn:He;
        [apply Z.eqb_eq in He; lia|reflexivity]. }
    destruct (IH n1 Hp1) as (nk & Hk & Hcik); [rewrite Hci, Hpc, Hw; lia|].
    exists nk. simpl. rewrite Hrun. simpl.
    split; [exact Hk|]. rewrite Hcik, Hci, Hw. lia.
Qed.

End TimerFacts.

Section Playback.

Import Reader.

Lemma firing_run k n :
  playable n ->
  exists nk message n',
    after k n = Ok nk
    /\ playable nk
    /\ timestamp_cache_ nk = timestamp_cache_ n
    /\ point_cloud_cache_ nk = point_cloud_cache_ n
    /\ wrapped_index nk
       = (wrapped_index n + Z.of_nat k) mod size (point_cloud_cache_ n)
    /\ timer_callback nk = Ok (message, n')
    /\ firing k n = Ok (message, n').
Proof.
  intros Hp.
  destruct (after_run k n Hp) as (nk & Hk & Hpk & Hts & Hpc & Hw).
  destruct (timer_callback_run nk Hpk) as (m & n' & Hrun & _).
  exists nk, m, n'. unfold firing. rewrite Hk. simpl.
  split; [reflexivity|]. repeat (split; [assumption|]). exact Hrun.
Qed.

Lemma wraparounds_none k : forall n,
  playable n ->
  current_index_ n + Z.of_nat k <= size (point_cloud_cache_ n) ->
  wraparounds k n = Ok 0%nat.
Proof.
  induction k as [|k IH]; intros n Hp Hle; [reflexivity|].
  destruct (timer_callback_run n Hp) as (m & n1 & Hrun & _ & Hts & Hpc & Hci & _).
  pose proof (timer_callback_playable n m n1 Hp Hrun) as Hp1.
  assert (Hne : (current_index_ n =? size (point_cloud_cache_ n)) = false)
    by (apply Z.eqb_neq; lia).
  assert (Hw : wrapped_index n = current_index_ n)
    by (unfold wrapped_index; rewrite Hne; reflexivity).
  simpl. rewrite Hrun. simpl.
  rewrite IH; [|exact Hp1|rewrite Hci, Hpc, Hw; lia].
  simpl. unfold wraps_now. rewrite Hne. reflexivity.
Qed.

Lemma wraparounds_once k : forall n,
  playable n ->
  current_index_ n + Z.of_nat k = size (point_cloud_cache_ n) ->
  wraparounds (S k) n = Ok 1%nat.
Proof.
  induction k as [|k IH]; intros n Hp Hle.
  - destruct (timer_callback_run n Hp) as (m & n1 & Hrun & _).
    assert (He : (current_index_ n =? size (point_cloud_cache_ n)) = true)
      by (apply Z.eqb_eq; lia).
    simpl. rewrite Hrun. simpl. unfold wraps_now. rewrite He. reflexivity.
  - destruct (timer_callback_run n Hp) as (m & n1 & Hrun & _ & Hts & Hpc & Hci & _).
    pose proof (timer_callback_playable n m n1 Hp Hrun) as Hp1.
    assert (Hne : (current_index_ n =? size (point_cloud_cache_ n)) = false)
      by (apply Z.eqb_neq; lia).
    assert (Hw : wrapped_index n = current_index_ n)
      by (unfold wrapped_index; rewrite Hne; reflexivity).
    change (wraparounds (S (S k)) n)
      with (r ← timer_callback n;
            w ← wraparounds (S k) r.2;
            mret (wraps_now n + w)%nat).
    rewrite Hrun. cbn [mbind outcome_bind snd].
    rewrite IH; [|exact Hp1|rewrite Hci, Hpc, Hw; lia].
    unfold wraps_now. rewrite Hne. reflexivity.
Qed.

(** C1. A fresh node (cursor 0) holding [N >= 2] frames and as many
    timestamps publishes its frames in the order 0, 1, ..., N-1, 0, 1, ...:
    firing number [k] (from 0) succeeds and publishes frame [k mod N].
    None of the first [N] firings executes the wraparound assignment and
    they leave the cursor at [N]; the [N+1]-th executes it, first thing,
    and so publishes frame 0: one wraparound in [N+1] firings. *)
Theorem emission_order (n : Node) :
  let N := size (point_cloud_cache_ n) in
  current_index_ n = 0 ->
  size (timestamp_cache_ n) = N ->
  2 <= N < 2 ^ 32 ->
  (forall k, exists message n',
      firing k n = Ok (message, n')
      /\ point_cloud_cache_ n !! Z.to_nat (Z.of_nat k mod N) = Some message)
  /\ (exists nN,
        after (Z.to_nat N) n = Ok nN
        /\ current_index_ nN = N
        /\ wrapped_index nN = 0
        /\ wraparounds (Z.to_nat N) n = Ok 0%nat)
  /\ wraparounds (S (Z.to_nat N)) n = Ok 1%nat
  /\ (exists message n',
        firing (Z.to_nat N) n = Ok (message, n')
        /\ point_cloud_cache_ n !! 0%nat = Some message).
Proof.
  intros N Hfresh Hts HN.
  assert (Hp : playable n) by (split; fold N; lia).
  assert (Hw0 : wrapped_index n = 0).
  { unfold wrapped_index. rewrite Hfresh.
    destruct (0 =? size (point_cloud_cache_ n)); reflexivity. }
  assert (Hall : forall k, exists message n',
      firing k n = Ok (message, n')
      /\ point_cloud_cache_ n !! Z.to_nat (Z.of_nat k mod N) = Some message).
  { intros k.
    destruct (firing_run k n Hp)
      as (nk & m & n' & Hk & Hpk & _ & Hpc & Hw & Hcb & Hf).
    destruct (timer_callback_run nk Hpk) as (m' & n'' & Hrun & Hm & _).
    rewrite Hcb in Hrun. inversion Hrun; subst m' n''.
    exists m, n'. split; [exact Hf|].
    rewrite Hw, Hw0, Hpc in Hm. exact Hm. }
  split; [exact Hall|].
  split; [|split].
  - destruct (after_cursor (Z.to_nat N) n Hp) as (nN & HaN & Hci);
      [fold N; lia|].
    exists nN. split; [exact HaN|].
    destruct (after_run (Z.to_nat N) n Hp) as (nN' & HaN' & _ & _ & Hpc & _).
    rewrite HaN in HaN'. inversion HaN'; subst nN'.
    assert (HciN : current_index_ nN = N) by (rewrite Hci; lia).
    split; [exact HciN|]. split.
    + unfold wrapped_index. rewrite HciN, Hpc. fold N.
      rewrite Z.eqb_refl. reflexivity.
    + apply wraparounds_none; [exact Hp|fold N; lia].
  - apply wraparounds_once; [exact Hp|fold N; lia].
  - destruct (Hall (Z.to_nat N)) as (m & n' & Hf & Hm).
    exists m, n'. split; [exact Hf|].
    rewrite Z2Nat.id, Z.mod_same in Hm by lia. exact Hm.
Qed.

End Playback.

Section Waits.

Import Decoder Reader.

(** The constructor, once the three paths are found and the counts agree:
    every source is opened, in order, and the first timer is armed from
    the first two timestamps. *)
Lemma constructor_run h data_path log :
  let velodyne := path_join data_path "velodyne_points" in
  let ts := readTimestamps h (path_join velodyne "timestamps_start.txt") in
  let data_files := readFilenames h (path_join velodyne "data") ".bin" in
  path_exists h data_path = true ->
  path_exists h (path_join velodyne "timestamps_start.txt") = true ->
  path_exists h (path_join velodyne "data") = true ->
  length data_files = length ts ->
  PointCloudReaderPublisherNode h data_path log
  = (start ts (frame_sequence (binary_files h) ts data_files),
     log ++ data_files).
Proof.
  intros velodyne ts data_files H1 H2 H3 Hlen.
  unfold PointCloudReaderPublisherNode.
  fold velodyne. rewrite H1, H2, H3.
  change (negb true) with false. cbv iota.
  fold ts. fold data_files.
  unfold mbind, io_bind. rewrite build_run by exact Hlen.
  unfold lift. reflexivity.
Qed.

Lemma frame_sequence_size fs ts data_files :
  length data_files = length ts ->
  size (frame_sequence fs ts data_files) <= size ts.
Proof.
  intros Hlen. unfold frame_sequence, kept_sources, size.
  rewrite length_fmap.
  pose proof (length_filter (fun source : Z * string => decode fs source.2 <> [])
                (zip ts data_files)) as Hle.
  rewrite length_zip in Hle. lia.
Qed.

(** Whatever node the constructor returns has its cursor at 0 and no more
    frames than timestamps; with a frame in it, and fewer than 2^32, it is
    playable. *)
Lemma constructed_playable h data_path log n log' :
  PointCloudReaderPublisherNode h data_path log = (Ok n, log') ->
  0 < size (point_cloud_cache_ n) < 2 ^ 32 ->
  playable n /\ current_index_ n = 0.
Proof.
  unfold PointCloudReaderPublisherNode.
  destruct (path_exists h data_path); [|discriminate].
  destruct (path_exists h _); [|discriminate].
  destruct (path_exists h _); [|discriminate].
  change (negb true) with false. cbv iota zeta.
  set (ts := readTimestamps h _). set (data_files := readFilenames h _ _).
  unfold mbind, io_bind.
  destruct (decide (length data_files = length ts)) as [Hlen|Hne];
    [|rewrite build_mismatch by exact Hne; discriminate].
  rewrite build_run by exact Hlen. unfold lift, start.
  destruct (at_ ts 1) as [t1| |]; [|discriminate..].
  destruct (at_ ts 0) as [t0| |]; [|discriminate..].
  cbn. intros Hn Hsize. inversion Hn; subst n. clear Hn.
  cbn in Hsize |- *.
  pose proof (frame_sequence_size (binary_files h) ts data_files Hlen).
  split; [split; cbn; lia|reflexivity].
Qed.

(** With as many timestamps as frames, the firing on the last frame arms
    the boundary sleep. *)
Lemma boundary_sleep_without_skips n :
  playable n ->
  size (timestamp_cache_ n) = size (point_cloud_cache_ n) ->
  wrapped_index n = size (point_cloud_cache_ n) - 1 ->
  exists message n',
    timer_callback n = Ok (message, n') /\ timer_ n' = boundary_sleep.
Proof.
  intros Hp Hsame Hlast.
  destruct (timer_callback_run n Hp)
    as (m & n' & Hrun & _ & _ & _ & _ & Hboundary & _).
  exists m, n'. split; [exact Hrun|]. apply Hboundary. lia.
Qed.

(** Three sources that all decode to at least one point give three
    frames. *)
Lemma frame_sequence_3 fs t0 t1 t2 f0 f1 f2 :
  decode fs f0 <> [] -> decode fs f1 <> [] -> decode fs f2 <> [] ->
  frame_sequence fs [t0; t1; t2] [f0; f1; f2]
  = [to_message t0 (decode fs f0); to_message t1 (decode fs f1);
     to_message t2 (decode fs f2)].
Proof.
  intros H0 H1 H2. unfold frame_sequence, kept_sources. simpl.
  rewrite !filter_cons, filter_nil. simpl.
  destruct (decide (decode fs f0 <> [])); [|contradiction].
  destruct (decide (decode fs f1 <> [])); [|contradiction].
  destruct (decide (decode fs f2 <> [])); [|contradiction].
  reflexivity.
Qed.

(** C2. In a run of a playable node, a firing whose cursor [c] (after
    the wraparound test) has [c + 1] different from the number of frames
    arms the next timer with [timestamp_cache_[c+1] - timestamp_cache_[c]],
    computed in 64 bits, which is the exact difference whenever that fits.
    With timestamps 1000, 1500, 5000 and three sources that decode to
    points, the constructor succeeds and firing [k] arms the wait number
    [k mod 3] of 500, 3500, boundary sleep, for every [k]. *)
Theorem wait_is_timestamp_difference :
  (forall n k,
      playable n ->
      exists nk message n',
        after k n = Ok nk
        /\ timer_callback nk = Ok (message, n')
        /\ firing k n = Ok (message, n')
        /\ let c := wrapped_index nk in
           (c + 1 <> size (point_cloud_cache_ n) ->
            exists t0 t1,
              timestamp_cache_ n !! Z.to_nat c = Some t0
              /\ timestamp_cache_ n !! Z.to_nat (c + 1) = Some t1
              /\ timer_ n' = Int.sub64 t1 t0
              /\ (Int.in_int64 (t1 - t0) -> timer_ n' = t1 - t0)))
  /\ (forall h data_path log f0 f1 f2,
        let velodyne := path_join data_path "velodyne_points" in
        path_exists h data_path = true ->
        path_exists h (path_join velodyne "timestamps_start.txt") = true ->
        path_exists h (path_join velodyne "data") = true ->
        readTimestamps h (path_join velodyne "timestamps_start.txt")
        = [1000; 1500; 5000] ->
        readFilenames h (path_join velodyne "data") ".bin" = [f0; f1; f2] ->
        decode (binary_files h) f0 <> [] ->
        decode (binary_files h) f1 <> [] ->
        decode (binary_files h) f2 <> [] ->
        exists n,
          (PointCloudReaderPublisherNode h data_path log).1 = Ok n
          /\ forall k, exists message n',
              firing k n = Ok (message, n')
              /\ [500; 3500; boundary_sleep] !! (k mod 3)%nat
                 = Some (timer_ n')).
Proof.
  split.
  - intros n k Hp.
    destruct (firing_run k n Hp)
      as (nk & m & n' & Hk & Hpk & Hts & Hpc & Hw & Hcb & Hf).
    exists nk, m, n'. repeat (split; [assumption|]).
    intros c Hc.
    destruct (timer_callback_run nk Hpk)
      as (m' & n'' & Hrun & _ & _ & _ & _ & _ & Hdiff).
    rewrite Hcb in Hrun. inversion Hrun; subst m' n''.
    pose proof (wrapped_index_range nk Hpk) as Hr. fold c in Hr, Hdiff.
    destruct Hp as [Q1 Q2 Q3 Q4]. rewrite Hpc in Hr.
    destruct Hdiff as (t0 & t1 & Ht0 & Ht1 & Ht); [rewrite Hts; lia|].
    exists t0, t1. rewrite Hts in Ht0, Ht1.
    repeat (split; [assumption|]).
    intros Hfit. rewrite Ht. apply int64_id, Hfit.
  - intros h data_path log f0 f1 f2 velodyne P1 P2 P3 Hts Hfs D0 D1 D2.
    pose proof (constructor_run h data_path log P1 P2 P3) as Hctor.
    fold velodyne in Hctor. rewrite Hts, Hfs in Hctor.
    specialize (Hctor eq_refl).
    rewrite frame_sequence_3 in Hctor by assumption.
    eexists. rewrite Hctor. split; [reflexivity|].
    set (n := updateTimerAndPublish _ _).
    assert (Hp : playable n) by playable_by_computation.
    intros k.
    destruct (firing_run k n Hp)
      as (nk & m & n' & Hk & Hpk & Htsk & Hpc & Hw & Hcb & Hf).
    exists m, n'. split; [exact Hf|].
    destruct (timer_callback_run nk Hpk)
      as (m' & n'' & Hrun & _ & _ & _ & _ & Hlast & Hdiff).
    rewrite Hcb in Hrun. inversion Hrun; subst m' n''.
    change (size (point_cloud_cache_ n)) with 3 in Hw.
    change (wrapped_index n) with 0 in Hw.
    rewrite Htsk in Hlast, Hdiff.
    change (timestamp_cache_ n) with [1000; 1500; 5000] in Hlast, Hdiff.
    change (size [1000; 1500; 5000]) with 3 in Hlast, Hdiff.
    assert (Hk3 : Z.of_nat (k mod 3) = Z.of_nat k mod 3)
      by (rewrite Nat2Z.inj_mod; reflexivity).
    assert (Hlt : (k mod 3 < 3)%nat) by (apply Nat.mod_upper_bound; lia).
    rewrite Z.add_0_l, <- Hk3 in Hw.
    destruct (k mod 3)%nat as [|[|[|j]]] eqn:Hmod; [| | |lia];
      rewrite Hw in Hlast, Hdiff; simpl in Hlast, Hdiff.
    + destruct Hdiff as (t0 & t1 & Ht0 & Ht1 & Ht); [lia|].
      inversion Ht0; inversion Ht1; subst. rewrite Ht. reflexivity.
    + destruct Hdiff as (t0 & t1 & Ht0 & Ht1 & Ht); [lia|].
      inversion Ht0; inversion Ht1; subst. rewrite Ht. reflexivity.
    + rewrite Hlast by lia. reflexivity.
Qed.

End Waits.



Section Statements.

Import Decoder Reader.

(** C8. A firing that takes the timestamp-difference branch on timestamps
    with [timestamp_cache_[c+1] <= timestamp_cache_[c]] hands the zero or
    negative difference itself to [updateTimerAndPublish], whose argument
    becomes the period of the new wall timer: nothing clamps it. With
    timestamps 1000, 900 the constructor arms -100 ns, and so does the first
    firing. *)
Theorem wait_not_clamped :
  (forall n t0 t1,
      playable n ->
      let c := wrapped_index n in
      c + 1 <> size (timestamp_cache_ n) ->
      timestamp_cache_ n !! Z.to_nat c = Some t0 ->
      timestamp_cache_ n !! Z.to_nat (c + 1) = Some t1 ->
      t1 <= t0 ->
      Int.in_int64 (t1 - t0) ->
      exists message n',
        timer_callback n = Ok (message, n')
        /\ timer_ n' = t1 - t0
        /\ timer_ n' <= 0
        /\ n' = updateTimerAndPublish (t1 - t0)
                  {| timestamp_cache_ := timestamp_cache_ n;
                     point_cloud_cache_ := point_cloud_cache_ n;
                     current_index_ := c + 1;
                     timer_ := timer_ n |})
  /\ (PointCloudReaderPublisherNode Fixture.host2_back "kitti" []).1
     = Ok Fixture.node2_back
  /\ timer_ Fixture.node2_back = -100
  /\ exists message n',
       firing 0 Fixture.node2_back = Ok (message, n') /\ timer_ n' = -100.
Proof.
  split; [|split; [|split]].
  - intros n t0 t1 Hp c Hbranch Ht0 Ht1 Hle Hfit.
    pose proof (wrapped_index_range n Hp) as Hc. fold c in Hc.
    destruct (at_in_range (point_cloud_cache_ n) c Hc) as (message & Hm & Hat).
    destruct Hp as [H1 H2 H3 H4].
    assert (Hu : Int.uint32 (c + 1) = c + 1) by (apply uint32_small; lia).
    unfold timer_callback. fold c. rewrite Hat, Hu. simpl.
    destruct (c + 1 =? size (timestamp_cache_ n)) eqn:He;
      [apply Z.eqb_eq in He; contradiction|]. simpl.
    rewrite (at_lookup _ (c + 1) t1) by (lia || exact Ht1).
    rewrite (at_lookup _ c t0) by (lia || exact Ht0).
    simpl. unfold Int.sub64. rewrite (int64_id _ Hfit).
    eexists _, _. split; [reflexivity|]. simpl.
    split; [reflexivity|]. split; [lia|reflexivity].
  - vm_compute. reflexivity.
  - reflexivity.
  - eexists _, _. split; vm_compute; reflexivity.
Qed.

(** C5, at an input with a skipped source: three timestamps, the second
    file empty. Two frames are cached. The second firing runs with the
    cursor on the last frame, yet arms the timer with
    [timestamp_cache_[2] - timestamp_cache_[1] = 3500] and not with the
    boundary sleep, because the test compares against the number of
    timestamps. *)
Theorem boundary_sleep_missed_after_skip :
  exists n nk message n',
    (PointCloudReaderPublisherNode Fixture.host3_gap "kitti" []).1 = Ok n
    /\ size (point_cloud_cache_ n) = 2
    /\ size (timestamp_cache_ n) = 3
    /\ after 1 n = Ok nk
    /\ wrapped_index nk = size (point_cloud_cache_ n) - 1
    /\ timer_callback nk = Ok (message, n')
    /\ timer_ n' = 3500
    /\ timer_ n' <> boundary_sleep.
Proof.
  eexists _, _, _, _.
  split; [vm_compute; reflexivity|].
  split; [reflexivity|]. split; [reflexivity|].
  split; [vm_compute; reflexivity|].
  split; [reflexivity|].
  split; [vm_compute; reflexivity|].
  split; [reflexivity|]. discriminate.
Qed.

(** C3, at two inputs with no frame. With two timestamps and two empty
    files the constructor throws nothing: it returns a node with an empty
    frame cache and a timer armed for 500 ns, and the first firing indexes
    the empty cache. With no timestamp and no file the count check passes
    and the constructor indexes the empty timestamp vector. *)
Theorem empty_sequence_not_rejected :
  (exists n,
      PointCloudReaderPublisherNode Fixture.host2_empty "kitti" []
      = (Ok n, ["0000000000.bin"; "0000000001.bin"]%string)
      /\ point_cloud_cache_ n = []
      /\ timer_ n = 500
      /\ timer_callback n = Undefined)
  /\ PointCloudReaderPublisherNode Fixture.host0 "kitti" [] = (Undefined, []).
Proof.
  split.
  - eexists. split; [vm_compute; reflexivity|].
    split; [reflexivity|]. split; reflexivity.
  - vm_compute. reflexivity.
Qed.

(** C4, at a file of five floats (20 bytes): the decoder returns two
    points, not [5 / 4 = 1]; the second is the fifth float followed by
    three zeros of the buffer. For every file the number of points is
    [number_of_floats] divided by four and rounded up. *)
Theorem partial_quadruple_kept :
  number_of_floats Fixture.five_floats = 5
  /\ (exists p0 f4,
        read_points Fixture.five_floats
        = [p0; {| x_m := f4; y_m := 0; z_m := 0; intensity := 0 |}])
  /\ size (read_points Fixture.five_floats) = 2
  /\ size (read_points Fixture.five_floats)
     <> number_of_floats Fixture.five_floats / 4
  /\ forall file,
       size (read_points file) = (number_of_floats file + 3) / 4.
Proof.
  split; [reflexivity|].
  split; [eexists _, _; vm_compute; reflexivity|].
  split; [vm_compute; reflexivity|].
  split; [vm_compute; discriminate|].
  exact read_points_size.
Qed.

Lemma decode_size fs filename : size (decode fs filename) <= 250000.
Proof.
  unfold decode. destruct (fs !! filename) as [file|]; [|unfold size; simpl; lia].
  rewrite read_points_size.
  pose proof (number_of_floats_bounds file) as Hn.
  apply Z.lt_succ_r, Z.div_lt_upper_bound; lia.
Qed.

Lemma read_points_nil : read_points [] = [].
Proof. reflexivity. Qed.

Lemma decode_unreadable_as_empty fs name filename :
  fs !! name = None ->
  decode (<[name := []]> fs) filename = decode fs filename.
Proof.
  intros Hnone. unfold decode.
  destruct (decide (name = filename)) as [->|Hne].
  - rewrite lookup_insert_eq, Hnone. apply read_points_nil.
  - rewrite lookup_insert_ne by exact Hne. reflexivity.
Qed.

Lemma frame_sequence_ext fs1 fs2 ts data_files :
  (forall filename, decode fs1 filename = decode fs2 filename) ->
  frame_sequence fs1 ts data_files = frame_sequence fs2 ts data_files.
Proof.
  intros Hext. unfold frame_sequence, kept_sources.
  induction (zip ts data_files) as [|source sources IH]; [reflexivity|].
  rewrite !filter_cons.
  destruct (decide (decode fs1 source.2 <> [])) as [H1|H1];
    destruct (decide (decode fs2 source.2 <> [])) as [H2|H2].
  - rewrite !fmap_cons, IH, Hext. reflexivity.
  - rewrite Hext in H1. contradiction.
  - rewrite Hext in H1. contradiction.
  - exact IH.
Qed.

Lemma frame_sequence_elem fs ts data_files message :
  message ∈ frame_sequence fs ts data_files ->
  exists t filename,
    message = to_message t (decode fs filename)
    /\ decode fs filename <> []
    /\ t ∈ ts /\ filename ∈ data_files.
Proof.
  unfold frame_sequence, kept_sources.
  intros ([t f] & -> & Hin)%list_elem_of_fmap.
  apply list_elem_of_filter in Hin as [Hkept Hzip].
  exists t, f. split; [reflexivity|]. split; [exact Hkept|].
  split; [eapply elem_of_zip_l|eapply elem_of_zip_r]; exact Hzip.
Qed.

(** Every source is either kept or skipped. *)
Lemma kept_and_skipped fs ts data_files :
  length data_files = length ts ->
  size (kept_sources fs ts data_files) + size (skipped_sources fs ts data_files)
  = size ts.
Proof.
  intros Hlen. unfold kept_sources, skipped_sources, size.
  rewrite <- (length_zip_with_l_eq pair ts data_files) by lia.
  induction (zip ts data_files) as [|source sources IH]; [reflexivity|].
  rewrite !filter_cons.
  destruct (decide (decode fs source.2 = [])) as [Hs|Hs];
    destruct (decide (decode fs source.2 <> [])) as [Hk|Hk];
    simpl; try lia; contradiction.
Qed.

Lemma frame_sequence_stamps fs ts data_files :
  length data_files = length ts ->
  (stamp <$> frame_sequence fs ts data_files) `sublist_of` ts.
Proof.
  intros Hlen. unfold frame_sequence.
  rewrite <- list_fmap_compose.
  rewrite <- (fst_zip ts data_files) at 2 by lia.
  change (stamp ∘ _) with (@fst Z string).
  apply fmap_sublist, sublist_filter.
Qed.

(** C9, at a single timestamp with a single decodable file: the
    constructor computes the first interval from [timestamp_cache_[1]],
    which the vector of one timestamp does not have. Once such a node runs,
    every firing arms the boundary sleep. A single frame left by skips
    (three timestamps, only the first file readable) is replayed every
    500 ns instead. *)
Theorem single_frame_first_interval :
  PointCloudReaderPublisherNode Fixture.host1 "kitti" []
  = (Undefined, ["0000000000.bin"%string])
  /\ start [1000] [Fixture.frame 1000 "001"] = Undefined
  /\ (forall k, exists message n',
         firing k Fixture.node1 = Ok (message, n')
         /\ timer_ n' = boundary_sleep)
  /\ (exists n message n',
         (PointCloudReaderPublisherNode Fixture.host3_single "kitti" []).1 = Ok n
         /\ size (point_cloud_cache_ n) = 1
         /\ timer_ n = 500
         /\ firing 0 n = Ok (message, n')
         /\ timer_ n' = 500).
Proof.
  split; [vm_compute; reflexivity|].
  split; [reflexivity|]. split.
  - intros k.
    assert (Hp : playable Fixture.node1) by playable_by_computation.
    destruct (firing_run k Fixture.node1 Hp)
      as (nk & m & n' & Hk & Hpk & Hts & Hpc & Hw & Hcb & Hf).
    exists m, n'. split; [exact Hf|].
    destruct (timer_callback_run nk Hpk)
      as (m' & n'' & Hrun & _ & _ & _ & _ & Hlast & _).
    rewrite Hcb in Hrun. inversion Hrun; subst m' n''.
    apply Hlast. rewrite Hw, Hts.
    change (size (point_cloud_cache_ Fixture.node1)) with 1.
    rewrite Z.mod_1_r. reflexivity.
  - eexists _, _, _.
    split; [vm_compute; reflexivity|].
    split; [reflexivity|]. split; [reflexivity|].
    split; vm_compute; reflexivity.
Qed.

(** C6. When the number of data files differs from the number of
    timestamps, building the cache throws the count-mismatch
    [runtime_error] and the log of opened files is returned as it was: no
    source has been opened, whatever the timestamps, the file names and the
    files are. The constructor, once its three paths exist, ends the same
    way. *)
Theorem count_mismatch_throws :
  (forall fs ts data_files log,
      length data_files <> length ts ->
      build fs ts data_files log
      = (Throw "The number of timestamps does not equal the number of data files",
         log))
  /\ (forall h data_path log,
        let velodyne := path_join data_path "velodyne_points" in
        path_exists h data_path = true ->
        path_exists h (path_join velodyne "timestamps_start.txt") = true ->
        path_exists h (path_join velodyne "data") = true ->
        length (readFilenames h (path_join velodyne "data") ".bin")
        <> length (readTimestamps h (path_join velodyne "timestamps_start.txt")) ->
        PointCloudReaderPublisherNode h data_path log
        = (Throw "The number of timestamps does not equal the number of data files",
           log)).
Proof.
  split; [exact build_mismatch|].
  intros h data_path log velodyne H1 H2 H3 Hne.
  unfold PointCloudReaderPublisherNode. fold velodyne. rewrite H1, H2, H3.
  change (negb true) with false. cbv iota zeta.
  unfold mbind, io_bind. rewrite build_mismatch by exact Hne. reflexivity.
Qed.

(** C7. For timestamps and data files of the same length, at least one,
    building the cache succeeds after opening every file in order. The
    cache is the frame sequence of the specification: the sources that
    decode to at least one point, in input order, each stamped with its own
    timestamp. Its length is the input length minus the number of skipped
    sources, its stamps are a subsequence of the timestamps, and a file that
    cannot be opened gives the same cache as an empty file in its place. *)
Theorem build_keeps_order fs ts data_files log :
  length data_files = length ts ->
  (1 <= length ts)%nat ->
  exists cache,
    build fs ts data_files log = (Ok cache, log ++ data_files)
    /\ cache = frame_sequence fs ts data_files
    /\ size cache <= size ts
    /\ size cache = size ts - size (skipped_sources fs ts data_files)
    /\ (stamp <$> cache) `sublist_of` ts
    /\ forall name,
         fs !! name = None ->
         build (<[name := []]> fs) ts data_files log
         = build fs ts data_files log.
Proof.
  intros Hlen Hpos. exists (frame_sequence fs ts data_files).
  split; [apply build_run, Hlen|]. split; [reflexivity|].
  assert (Hsize : size (frame_sequence fs ts data_files)
                  = size ts - size (skipped_sources fs ts data_files)).
  { pose proof (kept_and_skipped fs ts data_files Hlen) as Hsum.
    unfold frame_sequence, size at 1. rewrite length_fmap.
    fold (size (kept_sources fs ts data_files)). lia. }
  split; [rewrite Hsize; pose proof (size_nonneg (skipped_sources fs ts data_files)); lia|].
  split; [exact Hsize|].
  split; [apply frame_sequence_stamps, Hlen|].
  intros name Hnone. rewrite !build_run by exact Hlen.
  rewrite (frame_sequence_ext (<[name := []]> fs) fs); [reflexivity|].
  intros filename. apply decode_unreadable_as_empty, Hnone.
Qed.

Lemma frame_sequence_1 fs t filename :
  decode fs filename <> [] ->
  frame_sequence fs [t] [filename] = [to_message t (decode fs filename)].
Proof.
  intros Hkept. unfold frame_sequence, kept_sources.
  change (zip [t] [filename]) with [(t, filename)].
  rewrite filter_cons, filter_nil.
  destruct (decide (decode fs (t, filename).2 <> [])); [reflexivity|contradiction].
Qed.

Lemma build_single fs t filename log :
  decode fs filename <> [] ->
  build fs [t] [filename] log
  = (Ok [to_message t (decode fs filename)], log ++ [filename]).
Proof.
  intros Hkept. rewrite build_run by reflexivity.
  rewrite (frame_sequence_1 _ _ _ Hkept). reflexivity.
Qed.

Lemma build_ok_inv fs ts data_files log cache log' :
  build fs ts data_files log = (Ok cache, log') ->
  cache = frame_sequence fs ts data_files.
Proof.
  intros Hb.
  destruct (decide (length data_files = length ts)) as [Hlen|Hne].
  - rewrite build_run in Hb by exact Hlen. congruence.
  - rewrite build_mismatch in Hb by exact Hne. discriminate.
Qed.

(** C10. [input.read] stores at most 4,000,000 bytes, so the decoder sees
    at most 1,000,000 floats and returns at most 250,000 points, for every
    file, and what a file holds beyond the capacity of the buffer does not
    change the result. Every message in a built cache therefore holds at
    most 250,000 points, its [width]. [MAX_POINTS] is 200,000 and bounds
    nothing: a file that fills the buffer is cached as a message of 250,000
    points. *)
Theorem decoder_buffer_bound :
  (forall file,
      gcount file <= 4000000
      /\ number_of_floats file <= 1000000
      /\ size (read_points file) <= 250000)
  /\ (forall fs filename log,
        exists points,
          loadPointCloudDataFromBin fs filename log
          = (Ok points, log ++ [filename])
          /\ size points <= 250000)
  /\ (forall file rest,
        buffer_size * sizeof_float <= size file ->
        read_points (file ++ rest) = read_points file)
  /\ (forall fs ts data_files log cache log' message,
        build fs ts data_files log = (Ok cache, log') ->
        message ∈ cache ->
        size (data message) <= 250000 /\ width message = size (data message))
  /\ MAX_POINTS = 200000
  /\ exists message,
       (build Fixture.disk_full [0] ["0000000000.bin"%string] []).1
       = Ok [message]
       /\ width message = 250000
       /\ MAX_POINTS < width message.
Proof.
  split; [|split; [|split; [|split; [|split]]]].
  - intros file. pose proof (gcount_bounds file).
    pose proof (number_of_floats_bounds file).
    pose proof (decode_size {[ ""%string := file ]} "") as Hd.
    unfold decode in Hd. rewrite lookup_singleton_eq in Hd. lia.
  - intros fs filename log. exists (decode fs filename).
    split; [apply loadPointCloudDataFromBin_run|apply decode_size].
  - exact read_points_prefix.
  - intros fs ts data_files log cache log' message Hb Hin.
    apply build_ok_inv in Hb. subst cache.
    apply frame_sequence_elem in Hin as (t & f & -> & _).
    pose proof (decode_size fs f) as Hd.
    pose proof (size_nonneg (decode fs f)) as H0.
    unfold to_message. cbn [data width].
    split; [exact Hd|]. apply uint32_small. lia.
  - reflexivity.
  - assert (Hd : decode Fixture.disk_full "0000000000.bin" = read_points full_file).
    { unfold decode, Fixture.disk_full. rewrite lookup_singleton_eq. reflexivity. }
    assert (Hne : decode Fixture.disk_full "0000000000.bin" <> []).
    { intros Hnil. pose proof full_file_points as Hs.
      rewrite <- Hd, Hnil in Hs. discriminate Hs. }
    exists (to_message 0 (decode Fixture.disk_full "0000000000.bin")).
    rewrite (build_single Fixture.disk_full 0 "0000000000.bin" [] Hne).
    split; [reflexivity|].
    unfold to_message. cbn [width]. rewrite Hd, full_file_points.
    split; reflexivity.
Qed.

(** ** The statements at concrete inputs *)

Lemma node3_playable : playable Fixture.node3.
Proof. playable_by_computation. Defined.

Lemma node2_back_playable : playable Fixture.node2_back.
Proof. playable_by_computation. Defined.

Lemma emission_order_witness :
  (forall k, exists message n',
      firing k Fixture.node3 = Ok (message, n')
      /\ point_cloud_cache_ Fixture.node3 !! Z.to_nat (Z.of_nat k mod 3)
         = Some message)
  /\ (exists nN,
        after 3 Fixture.node3 = Ok nN
        /\ current_index_ nN = 3
        /\ wrapped_index nN = 0
        /\ wraparounds 3 Fixture.node3 = Ok 0%nat)
  /\ wraparounds 4 Fixture.node3 = Ok 1%nat
  /\ (exists message n',
        firing 3 Fixture.node3 = Ok (message, n')
        /\ point_cloud_cache_ Fixture.node3 !! 0%nat = Some message).
Proof.
  apply (emission_order Fixture.node3); [reflexivity|reflexivity|].
  change (size (point_cloud_cache_ Fixture.node3)) with 3. lia.
Defined.

Lemma wait_is_timestamp_difference_witness :
  (exists nk message n',
      after 1 Fixture.node3 = Ok nk
      /\ timer_callback nk = Ok (message, n')
      /\ firing 1 Fixture.node3 = Ok (message, n')
      /\ let c := wrapped_index nk in
         (c + 1 <> size (point_cloud_cache_ Fixture.node3) ->
          exists t0 t1,
            timestamp_cache_ Fixture.node3 !! Z.to_nat c = Some t0
            /\ timestamp_cache_ Fixture.node3 !! Z.to_nat (c + 1) = Some t1
            /\ timer_ n' = Int.sub64 t1 t0
            /\ (Int.in_int64 (t1 - t0) -> timer_ n' = t1 - t0)))
  /\ (exists n,
        (PointCloudReaderPublisherNode Fixture.host3 "kitti" []).1 = Ok n
        /\ forall k, exists message n',
            firing k n = Ok (message, n')
            /\ [500; 3500; boundary_sleep] !! (k mod 3)%nat = Some (timer_ n')).
Proof.
  split.
  - apply (proj1 wait_is_timestamp_difference Fixture.node3 1%nat).
    exact node3_playable.
  - apply (proj2 wait_is_timestamp_difference Fixture.host3 "kitti" []
             "0000000000.bin" "0000000001.bin" "0000000002.bin");
      try reflexivity; vm_compute; discriminate.
Defined.

Lemma wait_not_clamped_witness :
  exists message n',
    timer_callback Fixture.node2_back = Ok (message, n')
    /\ timer_ n' = 900 - 1000
    /\ timer_ n' <= 0
    /\ n' = updateTimerAndPublish (900 - 1000)
              {| timestamp_cache_ := [1000; 900];
                 point_cloud_cache_ := point_cloud_cache_ Fixture.node2_back;
                 current_index_ := 0 + 1;
                 timer_ := -100 |}.
Proof.
  apply (proj1 wait_not_clamped Fixture.node2_back 1000 900).
  - exact node2_back_playable.
  - vm_compute. discriminate.
  - reflexivity.
  - reflexivity.
  - lia.
  - unfold Int.in_int64. lia.
Defined.

Lemma count_mismatch_throws_witness :
  build Fixture.disk3 [1000; 1500] Fixture.names3 []
  = (Throw "The number of timestamps does not equal the number of data files",
     [])
  /\ PointCloudReaderPublisherNode
       (Fixture.host [1000; 1500] Fixture.names3 Fixture.disk3) "kitti" []
     = (Throw "The number of timestamps does not equal the number of data files",
        []).
Proof.
  split.
  - apply (proj1 count_mismatch_throws). simpl. lia.
  - apply (proj2 count_mismatch_throws); try reflexivity. simpl. lia.
Defined.

Lemma build_keeps_order_witness :
  exists cache,
    build Fixture.disk3_gap [1000; 1500; 5000] Fixture.names3 []
    = (Ok cache, [] ++ Fixture.names3)
    /\ cache = frame_sequence Fixture.disk3_gap [1000; 1500; 5000] Fixture.names3
    /\ size cache <= size [1000; 1500; 5000]
    /\ size cache
       = size [1000; 1500; 5000]
         - size (skipped_sources Fixture.disk3_gap [1000; 1500; 5000] Fixture.names3)
    /\ (stamp <$> cache) `sublist_of` [1000; 1500; 5000]
    /\ forall name,
         Fixture.disk3_gap !! name = None ->
         build (<[name := []]> Fixture.disk3_gap) [1000; 1500; 5000]
           Fixture.names3 []
         = build Fixture.disk3_gap [1000; 1500; 5000] Fixture.names3 [].
Proof.
  apply (build_keeps_order Fixture.disk3_gap [1000; 1500; 5000] Fixture.names3 []).
  - reflexivity.
  - simpl. lia.
Defined.

Lemma decoder_buffer_bound_witness :
  read_points (full_file ++ Fixture.five_floats) = read_points full_file
  /\ (size (data (Fixture.frame 1000 "001")) <= 250000
      /\ width (Fixture.frame 1000 "001")
         = size (data (Fixture.frame 1000 "001"))).
Proof.
  destruct decoder_buffer_bound as (_ & _ & Hprefix & Hcache & _).
  split.
  - apply Hprefix. rewrite full_file_size. vm_compute. discriminate.
  - apply (Hcache Fixture.disk3 [1000] ["0000000000.bin"%string] []
             [Fixture.frame 1000 "001"] ["0000000000.bin"%string]).
    + vm_compute. reflexivity.
    + apply list_elem_of_here.
Defined.

End Statements.

(** * Further properties of the decoder *)

Section DecoderContents.

Import Decoder.

(** The points already pushed stay in front. *)
Lemma copy_loop_prefix file n i acc : forall extra,
  copy_loop file n i (extra ++ acc) = extra ++ copy_loop file n i acc.
Proof.
  funelim (copy_loop file n i acc); intros extra.
  - rewrite (copy_loop_equation_1 file n i (extra ++ point_cloud)), Heq. simpl.
    rewrite <- app_assoc. apply H.
  - rewrite (copy_loop_equation_1 file n i (extra ++ point_cloud)), Heq.
    reflexivity.
Qed.

Lemma copy_loop_app file n i acc :
  copy_loop file n i acc = acc ++ copy_loop file n i [].
Proof.
  rewrite <- (copy_loop_prefix file n i [] acc), app_nil_r. reflexivity.
Qed.

Lemma copy_loop_lookup file n (k : nat) : forall i,
  i + 4 * Z.of_nat k < n ->
  copy_loop file n i [] !! k = Some (point_at file (i + 4 * Z.of_nat k)).
Proof.
  induction k as [|k IH]; intros i Hk.
  - rewrite copy_loop_equation_1.
    destruct (Z_lt_dec i n) as [Hlt|Hge]; [|lia]. simpl.
    rewrite copy_loop_app. simpl. f_equal. f_equal. lia.
  - rewrite copy_loop_equation_1.
    destruct (Z_lt_dec i n) as [Hlt|Hge]; [|lia]. simpl.
    rewrite copy_loop_app. simpl.
    rewrite IH by lia. f_equal. f_equal. lia.
Qed.

Lemma byte_val_range b : 0 <= byte_val b < 256.
Proof.
  unfold byte_val. pose proof (Byte.to_N_bounded b) as Hb. lia.
Qed.

Lemma byte_val_inj b1 b2 : byte_val b1 = byte_val b2 -> b1 = b2.
Proof.
  unfold byte_val. intros Heq. apply N2Z.inj in Heq.
  pose proof (Byte.of_to_N b1) as H1. rewrite Heq, Byte.of_to_N in H1.
  congruence.
Qed.

Lemma buffer_byte_range file j : 0 <= buffer_byte file j < 256.
Proof.
  unfold buffer_byte. destruct ((0 <=? j) && (j <? gcount file)).
  - apply byte_val_range.
  - lia.
Qed.

(** Bits below [2^k] and a multiple of [2^k] add up without carry. *)
Lemma lor_low_high a y k :
  0 <= k -> 0 <= a < 2 ^ k -> Z.lor a (Z.shiftl y k) = a + y * 2 ^ k.
Proof.
  intros Hk Ha. rewrite Z.shiftl_mul_pow2 by exact Hk.
  assert (Hland : Z.land a (y * 2 ^ k) = 0).
  { apply Z.bits_inj'. intros i Hi.
    rewrite Z.land_spec, Z.bits_0.
    destruct (Z.lt_ge_cases i k) as [Hlt|Hge].
    - rewrite (Z.mul_pow2_bits_low y k i) by exact Hlt.
      apply andb_false_r.
    - rewrite <- (Z.mod_small a (2 ^ k)) by exact Ha.
      rewrite Z.mod_pow2_bits_high by lia. reflexivity. }
  rewrite <- (Z.lxor_lor _ _ Hland). symmetry.
  apply Z.add_nocarry_lxor, Hland.
Qed.

Lemma data_buffer_sum file i :
  data_buffer file i
  = buffer_byte file (4 * i) + 256 * buffer_byte file (4 * i + 1)
    + 65536 * buffer_byte file (4 * i + 2)
    + 16777216 * buffer_byte file (4 * i + 3).
Proof.
  unfold data_buffer.
  pose proof (buffer_byte_range file (4 * i)) as H0.
  pose proof (buffer_byte_range file (4 * i + 1)) as H1.
  pose proof (buffer_byte_range file (4 * i + 2)) as H2.
  pose proof (buffer_byte_range file (4 * i + 3)) as H3.
  set (b0 := buffer_byte file (4 * i)) in *.
  set (b1 := buffer_byte file (4 * i + 1)) in *.
  set (b2 := buffer_byte file (4 * i + 2)) in *.
  set (b3 := buffer_byte file (4 * i + 3)) in *.
  replace (Z.shiftl b3 24) with (Z.shiftl (Z.shiftl b3 8) 16)
    by (rewrite Z.shiftl_shiftl by lia; reflexivity).
  rewrite <- Z.shiftl_lor.
  replace (Z.shiftl (Z.lor b2 (Z.shiftl b3 8)) 16)
    with (Z.shiftl (Z.shiftl (Z.lor b2 (Z.shiftl b3 8)) 8) 8)
    by (rewrite Z.shiftl_shiftl by lia; reflexivity).
  rewrite <- Z.shiftl_lor.
  rewrite (lor_low_high b2 b3 8) by lia.
  rewrite (lor_low_high b1 _ 8) by lia.
  rewrite (lor_low_high b0 _ 8) by lia.
  lia.
Qed.

(** A byte of the buffer below [gcount] is the file's. *)
Lemma buffer_byte_file file j :
  0 <= j < gcount file ->
  exists b, file !! Z.to_nat j = Some b /\ buffer_byte file j = byte_val b.
Proof.
  intros Hj. unfold buffer_byte.
  assert (Hsize : j < size file) by (unfold gcount in Hj; lia).
  destruct (lookup_lt_is_Some_2 file (Z.to_nat j)) as [b Hb];
    [unfold size in Hsize; lia|].
  exists b. split; [exact Hb|].
  destruct ((0 <=? j) && (j <? gcount file)) eqn:Hin.
  - rewrite Hb. reflexivity.
  - apply andb_false_iff in Hin as [Hin|Hin];
      [apply Z.leb_gt in Hin|apply Z.ltb_ge in Hin]; lia.
Qed.

Lemma number_of_floats_bytes file : 4 * number_of_floats file <= gcount file.
Proof.
  unfold number_of_floats, sizeof_float.
  pose proof (gcount_bounds file).
  apply Z.mul_div_le. lia.
Qed.

(** A float read whole is the little-endian word at its place in the
    file. *)
Lemma data_buffer_word file i :
  0 <= i < number_of_floats file ->
  le_word file (Z.to_nat (4 * i)) = Some (data_buffer file i).
Proof.
  intros Hi. pose proof (number_of_floats_bytes file) as Hn.
  destruct (buffer_byte_file file (4 * i)) as (b0 & L0 & E0); [lia|].
  destruct (buffer_byte_file file (4 * i + 1)) as (b1 & L1 & E1); [lia|].
  destruct (buffer_byte_file file (4 * i + 2)) as (b2 & L2 & E2); [lia|].
  destruct (buffer_byte_file file (4 * i + 3)) as (b3 & L3 & E3); [lia|].
  replace (Z.to_nat (4 * i + 1)) with (S (Z.to_nat (4 * i))) in L1 by lia.
  replace (Z.to_nat (4 * i + 2)) with (S (S (Z.to_nat (4 * i)))) in L2 by lia.
  replace (Z.to_nat (4 * i + 3)) with (S (S (S (Z.to_nat (4 * i))))) in L3 by lia.
  unfold le_word. rewrite L0, L1, L2, L3.
  rewrite data_buffer_sum, E0, E1, E2, E3. reflexivity.
Qed.

(** A float that starts at or after the last byte read is zero. *)
Lemma data_buffer_zero file i : gcount file <= 4 * i -> data_buffer file i = 0.
Proof.
  intros Hi. rewrite data_buffer_sum. unfold buffer_byte.
  repeat match goal with
  | |- context [(0 <=? ?j) && (?j <? gcount file)] =>
      replace ((0 <=? j) && (j <? gcount file)) with false
        by (symmetry; apply andb_false_iff; right; apply Z.ltb_ge; lia)
  end.
  reflexivity.
Qed.

End DecoderContents.

Section DecoderStatements.

Import Decoder.

Lemma read_points_lookup file (k : nat) :
  4 * Z.of_nat k < number_of_floats file ->
  read_points file !! k = Some (point_at file (4 * Z.of_nat k)).
Proof.
  intros Hk. unfold read_points.
  rewrite (copy_loop_lookup file (number_of_floats file) k 0) by lia.
  f_equal.
Qed.

(** A file of a whole number of floats that fits the buffer is read
    entirely. *)
Lemma whole_floats file :
  size file mod 4 = 0 -> size file <= 4000000 ->
  gcount file = size file /\ 4 * number_of_floats file = size file.
Proof.
  intros Hmod Hfit.
  assert (Hg : gcount file = size file)
    by (unfold gcount, buffer_size, sizeof_float; lia).
  split; [exact Hg|].
  unfold number_of_floats, sizeof_float. rewrite Hg.
  pose proof (Z.div_mod (size file) 4 ltac:(lia)). lia.
Qed.

(** X1. The decoder returns no point exactly when the file cannot be opened
    or holds fewer than four bytes. *)
Theorem decode_empty_iff fs filename :
  decode fs filename = []
  <-> fs !! filename = None
      \/ exists file, fs !! filename = Some file /\ size file < 4.
Proof.
  unfold decode. destruct (fs !! filename) as [file|] eqn:Hfile.
  - pose proof (read_points_size file) as Hsize.
    pose proof (number_of_floats_bounds file) as Hn.
    pose proof (size_nonneg file) as H0.
    assert (Hfloats : number_of_floats file = 0 <-> size file < 4).
    { unfold number_of_floats, gcount, buffer_size, sizeof_float.
      split; intros H.
      - apply Z.div_small_iff in H; lia.
      - apply Z.div_small. lia. }
    split.
    + intros Hnil. right. exists file. split; [reflexivity|].
      apply Hfloats. rewrite Hnil in Hsize. unfold size in Hsize at 1.
      simpl in Hsize.
      assert ((number_of_floats file + 3) / 4 < 1) as Hlt by lia.
      destruct (Z.eq_dec (number_of_floats file) 0) as [|Hne]; [assumption|].
      exfalso. assert (1 <= (number_of_floats file + 3) / 4); [|lia].
      apply Z.div_le_lower_bound; lia.
    + intros [Hnone|(file' & Hsome & Hsmall)]; [discriminate|].
      inversion Hsome; subst file'.
      apply Hfloats in Hsmall. rewrite Hsmall in Hsize.
      change ((0 + 3) / 4) with 0 in Hsize.
      destruct (read_points file); [reflexivity|].
      unfold size in Hsize. simpl in Hsize. lia.
  - split; [intros _; left; reflexivity|reflexivity].
Qed.

(** X2. When floats [4k .. 4k+3] were read whole, point [k] of the result
    holds, as x, y, z and intensity, the little-endian 32-bit words found in
    the file at byte offsets [16k], [16k+4], [16k+8] and [16k+12]. *)
Theorem read_points_words file (k : nat) :
  4 * Z.of_nat k + 3 < number_of_floats file ->
  exists p,
    read_points file !! k = Some p
    /\ le_word file (16 * k) = Some (x_m p)
    /\ le_word file (16 * k + 4) = Some (y_m p)
    /\ le_word file (16 * k + 8) = Some (z_m p)
    /\ le_word file (16 * k + 12) = Some (intensity p).
Proof.
  intros Hk. exists (point_at file (4 * Z.of_nat k)).
  split; [apply read_points_lookup; lia|].
  unfold point_at. cbn [x_m y_m z_m intensity].
  replace (16 * k + 12)%nat with (Z.to_nat (4 * (4 * Z.of_nat k + 3))) by lia.
  replace (16 * k + 8)%nat with (Z.to_nat (4 * (4 * Z.of_nat k + 2))) by lia.
  replace (16 * k + 4)%nat with (Z.to_nat (4 * (4 * Z.of_nat k + 1))) by lia.
  replace (16 * k)%nat with (Z.to_nat (4 * (4 * Z.of_nat k))) by lia.
  repeat split; apply data_buffer_word; lia.
Qed.

(** X3. A file whose length is a multiple of 16 bytes and at most 4,000,000
    decodes to exactly length / 16 points: on such files no point is padded
    and no byte is left over. *)
Theorem whole_quadruples_count file :
  size file mod 16 = 0 ->
  size file <= 4000000 ->
  size (read_points file) = size file / 16
  /\ 4 * number_of_floats file = size file
  /\ gcount file = size file.
Proof.
  intros Hmod Hfit.
  pose proof (Z.div_mod (size file) 16 ltac:(lia)) as Hdiv.
  assert (Hmod4 : size file mod 4 = 0).
  { replace (size file) with ((4 * (size file / 16)) * 4) by lia.
    apply Z.mod_mul. lia. }
  destruct (whole_floats file Hmod4 Hfit) as [Hg Hn].
  split; [|split; assumption].
  rewrite read_points_size.
  replace (number_of_floats file) with ((size file / 16) * 4) by lia.
  rewrite Z.div_add_l by lia. change (3 / 4) with 0. lia.
Qed.

(** X4. Decoding loses nothing of a file made of whole floats: two files of
    the same length, a multiple of 4 and at most 4,000,000 bytes, that decode
    to the same points are the same file. *)
Theorem read_points_injective f1 f2 :
  size f1 = size f2 ->
  size f1 mod 4 = 0 ->
  size f1 <= 4000000 ->
  read_points f1 = read_points f2 ->
  f1 = f2.
Proof.
  intros Hsize Hmod Hfit Hpoints.
  destruct (whole_floats f1 Hmod Hfit) as [Hg1 Hn1].
  destruct (whole_floats f2) as [Hg2 Hn2]; [rewrite <- Hsize; assumption..|].
  apply list_eq. intros j.
  destruct (decide (j < length f1)%nat) as [Hj|Hj].
  2:{ rewrite !lookup_ge_None_2; [reflexivity|unfold size in Hsize; lia|lia]. }
  set (i := Z.of_nat j / 4).
  set (k := Z.to_nat (i / 4)).
  assert (Hi : 0 <= i < number_of_floats f1).
  { unfold i. split; [apply Z.div_pos; lia|].
    apply Z.div_lt_upper_bound; [lia|]. unfold size in Hn1. lia. }
  assert (Hk : 4 * Z.of_nat k <= i < 4 * Z.of_nat k + 4).
  { unfold k. rewrite Z2Nat.id by (apply Z.div_pos; lia).
    pose proof (Z.div_mod i 4 ltac:(lia)).
    pose proof (Z.mod_pos_bound i 4 ltac:(lia)). lia. }
  pose proof (read_points_lookup f1 k ltac:(lia)) as L1.
  pose proof (read_points_lookup f2 k ltac:(lia)) as L2.
  rewrite Hpoints, L2 in L1. inversion L1 as [[Hx Hy Hz Hw]]. clear L1 L2.
  assert (Hfloat : data_buffer f1 i = data_buffer f2 i).
  { assert (Hcases : i = 4 * Z.of_nat k \/ i = 4 * Z.of_nat k + 1
                     \/ i = 4 * Z.of_nat k + 2 \/ i = 4 * Z.of_nat k + 3) by lia.
    destruct Hcases as [E | [E | [E | E]]]; rewrite E; congruence. }
  rewrite !data_buffer_sum in Hfloat.
  pose proof (buffer_byte_range f1 (4 * i)).
  pose proof (buffer_byte_range f1 (4 * i + 1)).
  pose proof (buffer_byte_range f1 (4 * i + 2)).
  pose proof (buffer_byte_range f1 (4 * i + 3)).
  pose proof (buffer_byte_range f2 (4 * i)).
  pose proof (buffer_byte_range f2 (4 * i + 1)).
  pose proof (buffer_byte_range f2 (4 * i + 2)).
  pose proof (buffer_byte_range f2 (4 * i + 3)).
  assert (Hbyte : buffer_byte f1 (Z.of_nat j) = buffer_byte f2 (Z.of_nat j)).
  { pose proof (Z.div_mod (Z.of_nat j) 4 ltac:(lia)) as Hdm.
    pose proof (Z.mod_pos_bound (Z.of_nat j) 4 ltac:(lia)) as Hr.
    fold i in Hdm.
    assert (Hcases : Z.of_nat j = 4 * i \/ Z.of_nat j = 4 * i + 1
                     \/ Z.of_nat j = 4 * i + 2 \/ Z.of_nat j = 4 * i + 3) by lia.
    destruct Hcases as [E | [E | [E | E]]]; rewrite E; lia. }
  destruct (buffer_byte_file f1 (Z.of_nat j)) as (b1 & Hb1 & E1);
    [unfold size in Hg1; lia|].
  destruct (buffer_byte_file f2 (Z.of_nat j)) as (b2 & Hb2 & E2);
    [unfold size in Hg2, Hsize; lia|].
  rewrite Nat2Z.id in Hb1, Hb2. rewrite Hb1, Hb2. f_equal.
  apply byte_val_inj. congruence.
Qed.

(** X5. When the file is made of whole floats but not of whole points, the
    last point is completed with zeros: in point [k], every field whose
    float index is not below [number_of_floats] is 0. *)
Theorem partial_point_zero_padded file (k : nat) :
  size file mod 4 = 0 ->
  size file <= 4000000 ->
  4 * Z.of_nat k < number_of_floats file ->
  exists p,
    read_points file !! k = Some p
    /\ (number_of_floats file <= 4 * Z.of_nat k + 1 -> y_m p = 0)
    /\ (number_of_floats file <= 4 * Z.of_nat k + 2 -> z_m p = 0)
    /\ (number_of_floats file <= 4 * Z.of_nat k + 3 -> intensity p = 0).
Proof.
  intros Hmod Hfit Hk.
  destruct (whole_floats file Hmod Hfit) as [Hg Hn].
  exists (point_at file (4 * Z.of_nat k)).
  split; [apply read_points_lookup, Hk|].
  unfold point_at. cbn [y_m z_m intensity].
  repeat split; intros Hpast; apply data_buffer_zero; lia.
Qed.

Lemma read_points_words_witness :
  exists p,
    read_points (Fixture.one_point "001") !! 0%nat = Some p
    /\ le_word (Fixture.one_point "001") (16 * 0) = Some (x_m p)
    /\ le_word (Fixture.one_point "001") (16 * 0 + 4) = Some (y_m p)
    /\ le_word (Fixture.one_point "001") (16 * 0 + 8) = Some (z_m p)
    /\ le_word (Fixture.one_point "001") (16 * 0 + 12) = Some (intensity p).
Proof.
  apply (read_points_words (Fixture.one_point "001") 0). vm_compute. reflexivity.
Defined.

Lemma whole_quadruples_count_witness :
  size (read_points (Fixture.one_point "001")) = size (Fixture.one_point "001") / 16
  /\ 4 * number_of_floats (Fixture.one_point "001") = size (Fixture.one_point "001")
  /\ gcount (Fixture.one_point "001") = size (Fixture.one_point "001").
Proof.
  apply (whole_quadruples_count (Fixture.one_point "001")).
  - reflexivity.
  - vm_compute. discriminate.
Defined.

Lemma read_points_injective_witness :
  Fixture.one_point "001" = repeat "001"%byte 16.
Proof.
  apply (read_points_injective (Fixture.one_point "001") (repeat "001"%byte 16)).
  - reflexivity.
  - reflexivity.
  - vm_compute. discriminate.
  - reflexivity.
Defined.

Lemma partial_point_zero_padded_witness :
  exists p,
    read_points Fixture.five_floats !! 1%nat = Some p
    /\ (number_of_floats Fixture.five_floats <= 4 * Z.of_nat 1 + 1 -> y_m p = 0)
    /\ (number_of_floats Fixture.five_floats <= 4 * Z.of_nat 1 + 2 -> z_m p = 0)
    /\ (number_of_floats Fixture.five_floats <= 4 * Z.of_nat 1 + 3
        -> intensity p = 0).
Proof.
  apply (partial_point_zero_padded Fixture.five_floats 1).
  - reflexivity.
  - vm_compute. discriminate.
  - vm_compute. reflexivity.
Defined.

End DecoderStatements.

(** * Further properties of the constructor *)

Section ConstructorStatements.

Import Decoder Reader.

(** The end of the constructor succeeds exactly on two timestamps or
    more. *)
Lemma start_cases ts cache :
  start ts cache
  = match ts with
    | t0 :: t1 :: _ =>
        Ok {| timestamp_cache_ := ts;
              point_cloud_cache_ := cache;
              current_index_ := 0;
              timer_ := Int.sub64 t1 t0 |}
    | _ => Undefined
    end.
Proof.
  unfold start, at_. destruct ts as [|t0 [|t1 rest]]; reflexivity.
Qed.

(** The constructor, check by check. *)
Lemma constructor_cases h data_path log :
  let velodyne := path_join data_path "velodyne_points" in
  let timestamps_file := path_join velodyne "timestamps_start.txt" in
  let binary_data_path := path_join velodyne "data" in
  let ts := readTimestamps h timestamps_file in
  let data_files := readFilenames h binary_data_path ".bin" in
  PointCloudReaderPublisherNode h data_path log
  = if negb (path_exists h data_path)
    then (Throw "Specified data path does not exist.", log)
    else if negb (path_exists h timestamps_file)
    then (Throw "Timestamp data file timestamps_start.txt was not found.", log)
    else if negb (path_exists h binary_data_path)
    then (Throw "Data path containing *.bin files was not found..", log)
    else if decide (length data_files = length ts)
    then (start ts (frame_sequence (binary_files h) ts data_files),
          log ++ data_files)
    else (Throw "The number of timestamps does not equal the number of data files",
          log).
Proof.
  intros velodyne timestamps_file binary_data_path ts data_files.
  unfold PointCloudReaderPublisherNode.
  fold velodyne. fold timestamps_file. fold binary_data_path.
  destruct (path_exists h data_path); [|reflexivity].
  destruct (path_exists h timestamps_file); [|reflexivity].
  destruct (path_exists h binary_data_path); [|reflexivity].
  change (negb true) with false. cbv iota zeta.
  fold ts. fold data_files. unfold mbind, io_bind.
  destruct (decide (length data_files = length ts)) as [Hlen|Hne].
  - rewrite build_run by exact Hlen. reflexivity.
  - rewrite build_mismatch by exact Hne. reflexivity.
Qed.

(** X6. The constructor throws in four cases only, checked in this order:
    the data path, the timestamps file or the data directory is missing, or
    the numbers of data files and of timestamps differ. Each case has its
    own message, and whenever the constructor throws no data file has been
    opened. *)
Theorem constructor_throws h data_path log e log' :
  let velodyne := path_join data_path "velodyne_points" in
  let timestamps_file := path_join velodyne "timestamps_start.txt" in
  let binary_data_path := path_join velodyne "data" in
  PointCloudReaderPublisherNode h data_path log = (Throw e, log')
  <-> log' = log
      /\ ((path_exists h data_path = false
           /\ e = "Specified data path does not exist."%string)
          \/ (path_exists h data_path = true
              /\ path_exists h timestamps_file = false
              /\ e = "Timestamp data file timestamps_start.txt was not found."%string)
          \/ (path_exists h data_path = true
              /\ path_exists h timestamps_file = true
              /\ path_exists h binary_data_path = false
              /\ e = "Data path containing *.bin files was not found.."%string)
          \/ (path_exists h data_path = true
              /\ path_exists h timestamps_file = true
              /\ path_exists h binary_data_path = true
              /\ length (readFilenames h binary_data_path ".bin")
                 <> length (readTimestamps h timestamps_file)
              /\ e = "The number of timestamps does not equal the number of data files"%string)).
Proof.
  intros velodyne timestamps_file binary_data_path.
  rewrite constructor_cases.
  fold velodyne. fold timestamps_file. fold binary_data_path.
  destruct (path_exists h data_path);
    [|simpl; split;
      [intros [= <- <-]; split; [reflexivity|left; split; reflexivity]
      |intros [-> [[_ ->]|[(H & _)|[(H & _)|(H & _)]]]];
         [reflexivity|discriminate..]]].
  destruct (path_exists h timestamps_file);
    [|simpl; split;
      [intros [= <- <-]; split; [reflexivity|right; left; repeat split]
      |intros [-> [[H _]|[(_ & _ & ->)|[(_ & H & _)|(_ & H & _)]]]];
         [discriminate|reflexivity|discriminate..]]].
  destruct (path_exists h binary_data_path);
    [|simpl; split;
      [intros [= <- <-]; split; [reflexivity|right; right; left; repeat split]
      |intros [-> [[H _]|[(_ & H & _)|[(_ & _ & _ & ->)|(_ & _ & H & _)]]]];
         [discriminate..|reflexivity|discriminate]]].
  simpl.
  destruct (decide _) as [Hlen|Hne].
  - rewrite start_cases. split.
    + destruct (readTimestamps h timestamps_file) as [|t0 [|t1 rest]];
        discriminate.
    + intros [_ [[H _]|[(_ & H & _)|[(_ & _ & H & _)|(_ & _ & _ & H & _)]]]];
        [discriminate..|contradiction].
  - split.
    + intros [= <- <-]. split; [reflexivity|].
      right; right; right. repeat split. exact Hne.
    + intros [-> [[H _]|[(_ & H & _)|[(_ & _ & H & _)|(_ & _ & _ & _ & ->)]]]];
        [discriminate..|reflexivity].
Qed.

(** X7. The constructor returns a node exactly when the three paths exist,
    there are as many data files as timestamps, and at least two
    timestamps. It has then opened every data file once, in order; the node
    holds the timestamps as read, the frame sequence of the decodable
    files, the cursor at 0, and a timer armed with the second timestamp
    minus the first. *)
Theorem constructor_succeeds h data_path log n log' :
  let velodyne := path_join data_path "velodyne_points" in
  let timestamps_file := path_join velodyne "timestamps_start.txt" in
  let binary_data_path := path_join velodyne "data" in
  let ts := readTimestamps h timestamps_file in
  let data_files := readFilenames h binary_data_path ".bin" in
  PointCloudReaderPublisherNode h data_path log = (Ok n, log')
  <-> path_exists h data_path = true
      /\ path_exists h timestamps_file = true
      /\ path_exists h binary_data_path = true
      /\ length data_files = length ts
      /\ log' = log ++ data_files
      /\ exists t0 t1 rest,
           ts = t0 :: t1 :: rest
           /\ n = {| timestamp_cache_ := ts;
                     point_cloud_cache_ :=
                       frame_sequence (binary_files h) ts data_files;
                     current_index_ := 0;
                     timer_ := Int.sub64 t1 t0 |}.
Proof.
  intros velodyne timestamps_file binary_data_path ts data_files.
  rewrite constructor_cases.
  fold velodyne. fold timestamps_file. fold binary_data_path.
  fold ts. fold data_files.
  destruct (path_exists h data_path);
    [|simpl; split; [discriminate|intros (H & _); discriminate]].
  destruct (path_exists h timestamps_file);
    [|simpl; split; [discriminate|intros (_ & H & _); discriminate]].
  destruct (path_exists h binary_data_path);
    [|simpl; split; [discriminate|intros (_ & _ & H & _); discriminate]].
  simpl. destruct (decide _) as [Hlen|Hne].
  - rewrite start_cases. split.
    + intros Hrun. repeat (split; [reflexivity || assumption|]).
      destruct ts as [|t0 [|t1 rest]]; try discriminate.
      inversion Hrun; subst. split; [reflexivity|].
      exists t0, t1, rest. split; reflexivity.
    + intros (_ & _ & _ & _ & -> & t0 & t1 & rest & Hts & ->).
      rewrite Hts. reflexivity.
  - split; [discriminate|]. intros (_ & _ & _ & Hlen & _). contradiction.
Qed.

(** X8. With the three paths present and as many data files as timestamps,
    the constructor indexes [timestamp_cache_] out of its bounds exactly
    when there are fewer than two timestamps; it does so after having
    opened every data file. *)
Theorem constructor_undefined h data_path log log' :
  let velodyne := path_join data_path "velodyne_points" in
  let timestamps_file := path_join velodyne "timestamps_start.txt" in
  let binary_data_path := path_join velodyne "data" in
  let ts := readTimestamps h timestamps_file in
  let data_files := readFilenames h binary_data_path ".bin" in
  PointCloudReaderPublisherNode h data_path log = (Undefined, log')
  <-> path_exists h data_path = true
      /\ path_exists h timestamps_file = true
      /\ path_exists h binary_data_path = true
      /\ length data_files = length ts
      /\ (length ts < 2)%nat
      /\ log' = log ++ data_files.
Proof.
  intros velodyne timestamps_file binary_data_path ts data_files.
  rewrite constructor_cases.
  fold velodyne. fold timestamps_file. fold binary_data_path.
  fold ts. fold data_files.
  destruct (path_exists h data_path);
    [|simpl; split; [discriminate|intros (H & _); discriminate]].
  destruct (path_exists h timestamps_file);
    [|simpl; split; [discriminate|intros (_ & H & _); discriminate]].
  destruct (path_exists h binary_data_path);
    [|simpl; split; [discriminate|intros (_ & _ & H & _); discriminate]].
  simpl. destruct (decide _) as [Hlen|Hne].
  - rewrite start_cases. split.
    + intros Hrun. repeat (split; [reflexivity || assumption|]).
      destruct ts as [|t0 [|t1 rest]]; try discriminate;
        inversion Hrun; subst; split; simpl; (lia || reflexivity).
    + intros (_ & _ & _ & _ & Hshort & ->).
      destruct ts as [|t0 [|t1 rest]]; simpl in Hshort; try lia; reflexivity.
  - split; [discriminate|]. intros (_ & _ & _ & Hlen & _). contradiction.
Qed.

End ConstructorStatements.

Section BuildStatements.

Import Decoder Reader.

Lemma frame_sequence_app fs ts1 ts2 d1 d2 :
  length ts1 = length d1 ->
  frame_sequence fs (ts1 ++ ts2) (d1 ++ d2)
  = frame_sequence fs ts1 d1 ++ frame_sequence fs ts2 d2.
Proof.
  intros Hlen. unfold frame_sequence, kept_sources.
  rewrite (zip_with_app pair ts1 ts2 d1 d2 Hlen).
  rewrite filter_app, fmap_app. reflexivity.
Qed.




(** X11. Loading a list of sources followed by another gives the frames of
    the first followed by the frames of the second, and opens the same
    files in the same order as loading the two lists one after the
    other. *)
Theorem build_app fs ts1 ts2 d1 d2 log :
  length d1 = length ts1 ->
  length d2 = length ts2 ->
  exists c1 c2,
    build fs ts1 d1 log = (Ok c1, log ++ d1)
    /\ build fs ts2 d2 (log ++ d1) = (Ok c2, (log ++ d1) ++ d2)
    /\ build fs (ts1 ++ ts2) (d1 ++ d2) log
       = (Ok (c1 ++ c2), (log ++ d1) ++ d2).
Proof.
  intros H1 H2.
  exists (frame_sequence fs ts1 d1), (frame_sequence fs ts2 d2).
  split; [apply build_run, H1|]. split; [apply build_run, H2|].
  rewrite build_run by (rewrite !length_app; lia).
  rewrite frame_sequence_app by lia.
  rewrite app_assoc. reflexivity.
Qed.

(** Only the decoding of the listed files matters. *)
Lemma frame_sequence_ext_listed fs1 fs2 ts : forall data_files,
  (forall filename, filename ∈ data_files ->
                    decode fs1 filename = decode fs2 filename) ->
  frame_sequence fs1 ts data_files = frame_sequence fs2 ts data_files.
Proof.
  induction ts as [|t ts IH]; intros [|f data_files] Hext; try reflexivity.
  rewrite !(frame_sequence_cons _ t ts f).
  rewrite IH by (intros g Hg; apply Hext, list_elem_of_further, Hg).
  f_equal.
  pose proof (Hext f (list_elem_of_here f data_files)) as Hf.
  unfold frame_sequence, kept_sources.
  change (zip [t] [f]) with [(t, f)].
  rewrite !filter_cons, !filter_nil. cbn [snd].
  destruct (decide (decode fs1 f <> [])) as [H1|H1];
    destruct (decide (decode fs2 f <> [])) as [H2|H2];
    rewrite Hf in H1; try contradiction; [|reflexivity].
  cbn. rewrite Hf. reflexivity.
Qed.

(** X19. The cache depends on the listed files only: creating, replacing
    or removing a file whose name is not among the data files changes
    neither the cache nor the files opened. *)
Theorem build_reads_listed_files_only fs ts data_files log name content :
  name ∉ data_files ->
  build (<[name := content]> fs) ts data_files log = build fs ts data_files log
  /\ build (delete name fs) ts data_files log = build fs ts data_files log.
Proof.
  intros Hfresh.
  destruct (decide (length data_files = length ts)) as [Hlen|Hne].
  - rewrite !build_run by exact Hlen. split; f_equal; f_equal.
    + apply frame_sequence_ext_listed. intros f Hf. unfold decode.
      rewrite lookup_insert_ne; [reflexivity|]. intros ->. contradiction.
    + apply frame_sequence_ext_listed. intros f Hf. unfold decode.
      rewrite lookup_delete_ne; [reflexivity|]. intros ->. contradiction.
  - rewrite !build_mismatch by exact Hne. split; reflexivity.
Qed.

Lemma build_reads_listed_files_only_witness :
  build (<["notes.txt"%string := Fixture.five_floats]> Fixture.disk3)
    [1000; 1500; 5000] Fixture.names3 []
  = build Fixture.disk3 [1000; 1500; 5000] Fixture.names3 []
  /\ build (delete "notes.txt"%string Fixture.disk3)
       [1000; 1500; 5000] Fixture.names3 []
     = build Fixture.disk3 [1000; 1500; 5000] Fixture.names3 [].
Proof.
  apply (build_reads_listed_files_only Fixture.disk3 [1000; 1500; 5000]
           Fixture.names3 [] "notes.txt" Fixture.five_floats).
  unfold Fixture.names3. intros Hin.
  repeat (apply elem_of_cons in Hin as [Hin|Hin]; [discriminate Hin|]).
  apply elem_of_nil in Hin. exact Hin.
Defined.



Lemma build_app_witness :
  exists c1 c2,
    build Fixture.disk3 [1000] ["0000000000.bin"%string] []
    = (Ok c1, [] ++ ["0000000000.bin"%string])
    /\ build Fixture.disk3 [1500; 5000]
         ["0000000001.bin"; "0000000002.bin"]%string
         ([] ++ ["0000000000.bin"%string])
       = (Ok c2, ([] ++ ["0000000000.bin"%string])
                 ++ ["0000000001.bin"; "0000000002.bin"]%string)
    /\ build Fixture.disk3 ([1000] ++ [1500; 5000])
         (["0000000000.bin"%string]
          ++ ["0000000001.bin"; "0000000002.bin"]%string) []
       = (Ok (c1 ++ c2),
          ([] ++ ["0000000000.bin"%string])
          ++ ["0000000001.bin"; "0000000002.bin"]%string).
Proof.
  apply (build_app Fixture.disk3 [1000] [1500; 5000]
           ["0000000000.bin"%string]
           ["0000000001.bin"; "0000000002.bin"]%string []);
    reflexivity.
Defined.

End BuildStatements.

(** * Further properties of the timer *)

Section TimerStatements.

Import Decoder Reader.

(** The callback reads the cursor only through the wraparound test, and
    overwrites the timer: two nodes with the same caches and the same
    wrapped cursor fire alike. *)
Lemma timer_callback_same n m :
  timestamp_cache_ n = timestamp_cache_ m ->
  point_cloud_cache_ n = point_cloud_cache_ m ->
  wrapped_index n = wrapped_index m ->
  timer_callback n = timer_callback m.
Proof.
  intros Hts Hpc Hw. unfold timer_callback, updateTimerAndPublish.
  rewrite Hts, Hpc, Hw. reflexivity.
Qed.




(** [k + 1] firings are [k] firings and one more. *)
Lemma after_snoc k : forall n,
  after (S k) n = nk ← after k n; r ← timer_callback nk; mret r.2.
Proof.
  induction k as [|k IH]; intros n.
  - simpl. destruct (timer_callback n) as [[m n1]| |]; reflexivity.
  - change (after (S (S k)) n) with (r ← timer_callback n; after (S k) r.2).
    change (after (S k) n) with (r ← timer_callback n; after k r.2).
    destruct (timer_callback n) as [[m n1]| |]; [|reflexivity..].
    cbn [mbind outcome_bind snd]. apply IH.
Qed.

(** X12. After any number of firings, at least one, the cursor of a
    playable node stands between 1 and the number of frames, one past the
    frame just published, and both caches are as they were: the cursor
    equals the number of frames between the firing that publishes the last
    frame and the next one. *)
Theorem cursor_after_firing n (k : nat) :
  playable n ->
  let N := size (point_cloud_cache_ n) in
  exists nk,
    after (S k) n = Ok nk
    /\ current_index_ nk = (wrapped_index n + Z.of_nat k) mod N + 1
    /\ 1 <= current_index_ nk <= N
    /\ timestamp_cache_ nk = timestamp_cache_ n
    /\ point_cloud_cache_ nk = point_cloud_cache_ n.
Proof.
  intros Hp N.
  destruct (firing_run k n Hp)
    as (nk & m & n' & Hk & Hpk & Hts & Hpc & Hw & Hcb & _).
  destruct (timer_callback_run nk Hpk)
    as (m' & n'' & Hrun & _ & Hts' & Hpc' & Hci & _).
  rewrite Hcb in Hrun. inversion Hrun; subst m' n''.
  exists n'. rewrite after_snoc, Hk. cbn [mbind outcome_bind].
  rewrite Hcb. cbn [mbind outcome_bind mret outcome_ret snd].
  split; [reflexivity|].
  pose proof (wrapped_index_range nk Hpk) as Hr.
  rewrite Hpc in Hr. fold N in Hr, Hw.
  split; [rewrite Hci, Hw; reflexivity|].
  split; [rewrite Hci; lia|].
  split; congruence.
Qed.

(** X13. Playback is periodic with the number of frames as its period:
    firing [k + N] publishes the same message and leaves the same node,
    cursor and armed wait included, as firing [k]. *)
Theorem firing_periodic n (k : nat) :
  playable n ->
  firing (k + Z.to_nat (size (point_cloud_cache_ n))) n = firing k n.
Proof.
  intros Hp.
  set (N := size (point_cloud_cache_ n)).
  destruct (after_run k n Hp) as (nk & Hk & Hpk & Hts & Hpc & Hw).
  destruct (after_run (k + Z.to_nat N) n Hp)
    as (nkN & HkN & HpkN & HtsN & HpcN & HwN).
  unfold firing. rewrite Hk, HkN. cbn [mbind outcome_bind].
  apply timer_callback_same; [congruence..|].
  rewrite Hw, HwN. fold N.
  destruct Hp as [H1 _ _ _]. fold N in H1.
  rewrite Nat2Z.inj_add, Z2Nat.id by lia.
  rewrite Z.add_assoc.
  replace (wrapped_index n + Z.of_nat k + N)
    with (wrapped_index n + Z.of_nat k + 1 * N) by lia.
  apply Z.mod_add. lia.
Qed.

(** From cursor [c] to the end of the cycle, the waits add up to the last
    timestamp minus timestamp [c], plus the boundary sleep. *)
Lemma waits_to_boundary j : forall n a b,
  playable n ->
  size (timestamp_cache_ n) = size (point_cloud_cache_ n) ->
  (forall (i : nat) x y,
      timestamp_cache_ n !! i = Some x ->
      timestamp_cache_ n !! S i = Some y ->
      Int.in_int64 (y - x)) ->
  current_index_ n + Z.of_nat (S j) = size (point_cloud_cache_ n) ->
  timestamp_cache_ n !! Z.to_nat (current_index_ n) = Some a ->
  timestamp_cache_ n !! Z.to_nat (size (point_cloud_cache_ n) - 1) = Some b ->
  exists ws,
    waits (S j) n = Ok ws
    /\ length ws = S j
    /\ foldr Z.add 0 ws = b - a + boundary_sleep.
Proof.
  induction j as [|j IH]; intros n a b Hp Hsame Hfit Hc Ha Hb.
  - destruct (timer_callback_run n Hp)
      as (m & n1 & Hrun & _ & _ & _ & _ & Hlast & _).
    assert (Hw : wrapped_index n = current_index_ n).
    { unfold wrapped_index.
      destruct (current_index_ n =? size (point_cloud_cache_ n)) eqn:He;
        [apply Z.eqb_eq in He; lia|reflexivity]. }
    exists [boundary_sleep]. simpl. rewrite Hrun. simpl.
    rewrite Hlast by lia.
    split; [reflexivity|]. split; [reflexivity|].
    replace (size (point_cloud_cache_ n) - 1) with (current_index_ n) in Hb
      by lia.
    rewrite Ha in Hb. inversion Hb; subst. simpl. lia.
  - destruct (timer_callback_run n Hp)
      as (m & n1 & Hrun & _ & Hts & Hpc & Hci & _ & Hdiff).
    pose proof (timer_callback_playable n m n1 Hp Hrun) as Hp1.
    assert (Hw : wrapped_index n = current_index_ n).
    { unfold wrapped_index.
      destruct (current_index_ n =? size (point_cloud_cache_ n)) eqn:He;
        [apply Z.eqb_eq in He; lia|reflexivity]. }
    rewrite Hw in Hdiff, Hci.
    destruct Hdiff as (t0 & t1 & Ht0 & Ht1 & Ht); [lia|].
    rewrite Ha in Ht0. inversion Ht0; subst t0.
    destruct Hp as [_ _ _ Hrange].
    assert (Hin : Int.in_int64 (t1 - a)).
    { apply (Hfit (Z.to_nat (current_index_ n))); [exact Ha|].
      replace (S (Z.to_nat (current_index_ n)))
        with (Z.to_nat (current_index_ n + 1)) by lia.
      exact Ht1. }
    destruct (IH n1 t1 b) as (ws & Hws & Hlen & Hsum);
      [ exact Hp1
      | rewrite Hts, Hpc; exact Hsame
      | rewrite Hts; exact Hfit
      | rewrite Hci, Hpc; lia
      | rewrite Hts, Hci; exact Ht1
      | rewrite Hts, Hpc; exact Hb
      | ].
    exists (timer_ n1 :: ws).
    change (waits (S (S j)) n)
      with (r ← timer_callback n; ws ← waits (S j) r.2; mret (timer_ r.2 :: ws)).
    rewrite Hrun. cbn [mbind outcome_bind snd]. rewrite Hws.
    split; [reflexivity|]. split; [simpl; lia|].
    simpl. rewrite Hsum, Ht. unfold Int.sub64.
    rewrite (int64_id _ Hin). lia.
Qed.

(** X14. One cycle takes the span of the recording plus the boundary sleep:
    for a node at cursor 0 with as many timestamps as frames, whose
    consecutive timestamp differences fit in 64 bits, the waits armed by
    the first [N] firings add up to the last timestamp minus the first,
    plus 100 ms. *)
Theorem cycle_duration n first final :
  playable n ->
  current_index_ n = 0 ->
  size (timestamp_cache_ n) = size (point_cloud_cache_ n) ->
  (forall (i : nat) x y,
      timestamp_cache_ n !! i = Some x ->
      timestamp_cache_ n !! S i = Some y ->
      Int.in_int64 (y - x)) ->
  head (timestamp_cache_ n) = Some first ->
  last (timestamp_cache_ n) = Some final ->
  exists ws,
    waits (length (point_cloud_cache_ n)) n = Ok ws
    /\ length ws = length (point_cloud_cache_ n)
    /\ foldr Z.add 0 ws = final - first + boundary_sleep.
Proof.
  intros Hp Hfresh Hsame Hfit Hfirst Hfinal.
  pose proof (has_frame n Hp) as Hpos. unfold size in Hpos, Hsame.
  destruct (length (point_cloud_cache_ n)) as [|j] eqn:HN; [lia|].
  apply (waits_to_boundary j n first final Hp); try assumption.
  - unfold size. rewrite Hsame, HN. reflexivity.
  - unfold size. rewrite Hfresh, HN. lia.
  - rewrite Hfresh. rewrite <- head_lookup. exact Hfirst.
  - rewrite last_lookup in Hfinal. unfold size. rewrite HN.
    replace (Z.to_nat (Z.of_nat (S j) - 1)) with (pred (length (timestamp_cache_ n)))
      by lia.
    exact Hfinal.
Qed.

(** What a node returned by the constructor looks like. *)
Lemma constructed_node h data_path log n log' :
  PointCloudReaderPublisherNode h data_path log = (Ok n, log') ->
  exists t0 t1 rest data_files,
    timestamp_cache_ n = t0 :: t1 :: rest
    /\ length data_files = length (timestamp_cache_ n)
    /\ point_cloud_cache_ n
       = frame_sequence (binary_files h) (timestamp_cache_ n) data_files
    /\ current_index_ n = 0
    /\ timer_ n = Int.sub64 t1 t0.
Proof.
  rewrite constructor_cases.
  destruct (negb _); [discriminate|].
  destruct (negb _); [discriminate|].
  destruct (negb _); [discriminate|].
  destruct (decide _) as [Hlen|Hne]; [|discriminate].
  rewrite start_cases.
  destruct (readTimestamps h _) as [|t0 [|t1 rest]] eqn:Hts; try discriminate.
  intros [= <- <-]. cbn.
  exists t0, t1, rest, (readFilenames h
    (path_join (path_join data_path "velodyne_points") "data") ".bin").
  repeat split; assumption || reflexivity.
Qed.

(** Nothing can be published from an empty cache. *)
Lemma firing_empty_cache k : forall n,
  point_cloud_cache_ n = [] -> firing k n = Undefined.
Proof.
  assert (Hcb : forall n, point_cloud_cache_ n = [] -> timer_callback n = Undefined).
  { intros n Hnil. unfold timer_callback, at_. rewrite Hnil.
    destruct (wrapped_index n <? 0); [reflexivity|].
    rewrite lookup_nil. reflexivity. }
  induction k as [|k IH]; intros n Hnil; unfold firing.
  - simpl. apply Hcb, Hnil.
  - simpl. rewrite (Hcb n Hnil). reflexivity.
Qed.

(** X15. When the cache holds fewer frames than there are timestamps, no
    firing ever arms the boundary sleep: every firing, the one on the last
    frame included, arms the difference of the two timestamps at the cursor
    and after it, and timestamps beyond position [N] are never read. *)
Theorem boundary_never_armed_after_skip n (k : nat) :
  playable n ->
  size (point_cloud_cache_ n) < size (timestamp_cache_ n) ->
  exists nk message n' t0 t1,
    after k n = Ok nk
    /\ firing k n = Ok (message, n')
    /\ wrapped_index nk + 1 <= size (point_cloud_cache_ n)
    /\ timestamp_cache_ n !! Z.to_nat (wrapped_index nk) = Some t0
    /\ timestamp_cache_ n !! Z.to_nat (wrapped_index nk + 1) = Some t1
    /\ timer_ n' = Int.sub64 t1 t0.
Proof.
  intros Hp Hskip.
  destruct (firing_run k n Hp)
    as (nk & m & n' & Hk & Hpk & Hts & Hpc & Hw & Hcb & Hf).
  destruct (timer_callback_run nk Hpk)
    as (m' & n'' & Hrun & _ & _ & _ & _ & _ & Hdiff).
  rewrite Hcb in Hrun. inversion Hrun; subst m' n''.
  pose proof (wrapped_index_range nk Hpk) as Hr. rewrite Hpc in Hr.
  destruct Hdiff as (t0 & t1 & Ht0 & Ht1 & Ht); [rewrite Hts; lia|].
  rewrite Hts in Ht0, Ht1.
  exists nk, m, n', t0, t1.
  repeat (split; [assumption || lia|]). exact Ht.
Qed.

(** X16. For a node returned by the constructor (with fewer than 2^32
    frames), either the cache is empty and every firing indexes it out of
    bounds, or it is not and every firing succeeds. *)
Theorem firing_defined_iff h data_path log n log' (k : nat) :
  PointCloudReaderPublisherNode h data_path log = (Ok n, log') ->
  size (point_cloud_cache_ n) < 2 ^ 32 ->
  (point_cloud_cache_ n = [] /\ firing k n = Undefined)
  \/ (point_cloud_cache_ n <> []
      /\ exists message n', firing k n = Ok (message, n')).
Proof.
  intros Hctor Hfit.
  destruct (point_cloud_cache_ n) as [|m0 cache] eqn:Hcache.
  - left. split; [reflexivity|]. apply firing_empty_cache, Hcache.
  - right. split; [discriminate|].
    destruct (constructed_playable h data_path log n log' Hctor) as [Hp _].
    { rewrite Hcache. split; [unfold size; cbn [length]; lia|exact Hfit]. }
    destruct (firing_run k n Hp) as (nk & m & n' & _ & _ & _ & _ & _ & _ & Hf).
    exists m, n'. exact Hf.
Qed.

(** X17. The first firing of a constructed node with a frame publishes
    frame 0 and arms the very interval the constructor armed: frame 0 goes
    out [timestamp_cache_[1] - timestamp_cache_[0]] after start-up and the
    next firing follows after the same interval again. *)
Theorem first_interval_repeated h data_path log n log' :
  PointCloudReaderPublisherNode h data_path log = (Ok n, log') ->
  0 < size (point_cloud_cache_ n) < 2 ^ 32 ->
  exists message n',
    firing 0 n = Ok (message, n')
    /\ point_cloud_cache_ n !! 0%nat = Some message
    /\ timer_ n' = timer_ n.
Proof.
  intros Hctor Hsize.
  destruct (constructed_playable h data_path log n log' Hctor Hsize)
    as [Hp Hfresh].
  destruct (constructed_node h data_path log n log' Hctor)
    as (t0 & t1 & rest & files & Hts & _ & _ & _ & Htimer).
  assert (Hw : wrapped_index n = 0).
  { unfold wrapped_index. rewrite Hfresh.
    destruct (0 =? size (point_cloud_cache_ n)); reflexivity. }
  destruct (timer_callback_run n Hp)
    as (m & n' & Hrun & Hm & _ & _ & _ & _ & Hdiff).
  rewrite Hw in Hm, Hdiff.
  exists m, n'. split; [exact Hrun|]. split; [exact Hm|].
  destruct Hdiff as (a & b & Ha & Hb & Ht).
  { rewrite Hts. unfold size. simpl. lia. }
  rewrite Hts in Ha, Hb. simpl in Ha, Hb.
  inversion Ha; inversion Hb; subst. congruence.
Qed.


Lemma cursor_after_firing_witness :
  exists nk,
    after 3 Fixture.node3 = Ok nk
    /\ current_index_ nk
       = (wrapped_index Fixture.node3 + Z.of_nat 2)
           mod size (point_cloud_cache_ Fixture.node3) + 1
    /\ 1 <= current_index_ nk <= size (point_cloud_cache_ Fixture.node3)
    /\ timestamp_cache_ nk = timestamp_cache_ Fixture.node3
    /\ point_cloud_cache_ nk = point_cloud_cache_ Fixture.node3.
Proof.
  apply (cursor_after_firing Fixture.node3 2). exact node3_playable.
Defined.

Lemma firing_periodic_witness :
  firing (1 + Z.to_nat (size (point_cloud_cache_ Fixture.node3))) Fixture.node3
  = firing 1 Fixture.node3.
Proof.
  apply (firing_periodic Fixture.node3 1). exact node3_playable.
Defined.

Lemma cycle_duration_witness :
  exists ws,
    waits (length (point_cloud_cache_ Fixture.node3)) Fixture.node3 = Ok ws
    /\ length ws = length (point_cloud_cache_ Fixture.node3)
    /\ foldr Z.add 0 ws = 5000 - 1000 + boundary_sleep.
Proof.
  apply (cycle_duration Fixture.node3 1000 5000).
  - exact node3_playable.
  - reflexivity.
  - reflexivity.
  - intros [|[|[|i]]] x y Hx Hy; simpl in Hx, Hy;
      try discriminate; inversion Hx; inversion Hy; subst;
      unfold Int.in_int64; lia.
  - reflexivity.
  - reflexivity.
Defined.

Lemma node3_gap_playable :
  playable (updateTimerAndPublish 500
              {| timestamp_cache_ := [1000; 1500; 5000];
                 point_cloud_cache_ :=
                   [Fixture.frame 1000 "001"; Fixture.frame 5000 "003"];
                 current_index_ := 0;
                 timer_ := 0 |}).
Proof. playable_by_computation. Defined.

Lemma boundary_never_armed_after_skip_witness :
  let n := updateTimerAndPublish 500
             {| timestamp_cache_ := [1000; 1500; 5000];
                point_cloud_cache_ :=
                  [Fixture.frame 1000 "001"; Fixture.frame 5000 "003"];
                current_index_ := 0;
                timer_ := 0 |} in
  exists nk message n' t0 t1,
    after 1 n = Ok nk
    /\ firing 1 n = Ok (message, n')
    /\ wrapped_index nk + 1 <= size (point_cloud_cache_ n)
    /\ timestamp_cache_ n !! Z.to_nat (wrapped_index nk) = Some t0
    /\ timestamp_cache_ n !! Z.to_nat (wrapped_index nk + 1) = Some t1
    /\ timer_ n' = Int.sub64 t1 t0.
Proof.
  apply (boundary_never_armed_after_skip _ 1).
  - exact node3_gap_playable.
  - vm_compute. reflexivity.
Defined.

Lemma firing_defined_iff_witness :
  (point_cloud_cache_ Fixture.node3 = []
   /\ firing 2 Fixture.node3 = Undefined)
  \/ (point_cloud_cache_ Fixture.node3 <> []
      /\ exists message n', firing 2 Fixture.node3 = Ok (message, n')).
Proof.
  apply (firing_defined_iff Fixture.host3 "kitti" [] Fixture.node3
           Fixture.names3 2).
  - vm_compute. reflexivity.
  - vm_compute. reflexivity.
Defined.

Lemma first_interval_repeated_witness :
  exists message n',
    firing 0 Fixture.node3 = Ok (message, n')
    /\ point_cloud_cache_ Fixture.node3 !! 0%nat = Some message
    /\ timer_ n' = timer_ Fixture.node3.
Proof.
  apply (first_interval_repeated Fixture.host3 "kitti" [] Fixture.node3
           Fixture.names3).
  - vm_compute. reflexivity.
  - split; vm_compute; reflexivity.
Defined.


End TimerStatements.
